(** * LiliumTest, main.c: air-data acquisition, filter, compensation, fault debounce

    A shallow embedding of [src/main.c]: the 10 ms timer interrupt
    [Tick_10ms], the two processing functions [filterAirData] and
    [compensateAirData], the fault handler [Fault] and the body of the
    endless loop of [main].

    The C functions work on two globals ([RawAirData], [AirDataProcessed])
    and on locals of [main] that are passed by address, so every function is
    a computation in a state monad over one [machine] record.  Each store,
    each call of [Fault] and each use of the interrupt mask macros is also
    appended to a [trace], in program order, so that statements about the
    order and the number of effects can be made. *)

From Stdlib Require Import ZArith List Bool Lia SpecFloat.
Import ListNotations.
Open Scope Z_scope.

(** ** Integer types of [AirData_t]

    [unsigned char] is 8 bits, [unsigned short] 16 bits and [unsigned long]
    32 bits (the comment above [compensateAirData] fixes the last two).
    A value of one of these types is a [Z] in the type's range; a conversion
    to the type reduces modulo 2^width. *)

Definition to_uchar (z : Z) : Z := z mod 2 ^ 8.
Definition to_ushort (z : Z) : Z := z mod 2 ^ 16.
Definition to_ulong (z : Z) : Z := z mod 2 ^ 32.

Definition is_uchar (z : Z) : Prop := 0 <= z < 2 ^ 8.
Definition is_ushort (z : Z) : Prop := 0 <= z < 2 ^ 16.
Definition is_ulong (z : Z) : Prop := 0 <= z < 2 ^ 32.

(** ** Fault codes (the [#define]s of lines 33-37) *)

Definition FAULT_NONE : Z := 0.
Definition FAULT_OVERRUN : Z := 1.
Definition FAULT_AIRFILTER : Z := 2.
Definition FAULT_COMPENSATE_DIV : Z := 3.
Definition FAULT_COMPENSATE_RANGE : Z := 4.

(** ** [AirData_t] *)

Record AirData_t : Type := mkAirData {
  errorWord : Z;   (* unsigned char,  0 = ok *)
  tempC : Z;       (* unsigned short *)
  speed : Z        (* unsigned long  *)
}.

Definition wf_AirData (d : AirData_t) : Prop :=
  is_uchar (errorWord d) /\ is_ushort (tempC d) /\ is_ulong (speed d).

Inductive field : Type := F_errorWord | F_tempC | F_speed.

Definition get_field (f : field) (d : AirData_t) : Z :=
  match f with
  | F_errorWord => errorWord d
  | F_tempC => tempC d
  | F_speed => speed d
  end.

(** Conversion to the type of the field, as done by an assignment. *)
Definition narrow (f : field) (v : Z) : Z :=
  match f with
  | F_errorWord => to_uchar v
  | F_tempC => to_ushort v
  | F_speed => to_ulong v
  end.

Definition set_field (f : field) (v : Z) (d : AirData_t) : AirData_t :=
  match f with
  | F_errorWord => mkAirData v (tempC d) (speed d)
  | F_tempC => mkAirData (errorWord d) v (speed d)
  | F_speed => mkAirData (errorWord d) (tempC d) v
  end.

(** ** [double] arithmetic

    [AIR_DATA_SCALE] is the [double] constant 1.00325, and
    [in->tempC * AIR_DATA_SCALE] is a product of two IEEE 754 binary64
    numbers.  They are modelled with the specification floats of the
    Standard Library at precision 53 and maximal exponent 1024. *)

Definition prec : Z := 53.
Definition emax : Z := 1024.

(** Conversion of an integer to [double] (exact below 2^53). *)
Definition double_of_Z (v : Z) : spec_float := binary_normalize prec emax v 0 false.

(** The binary64 number nearest to 1.00325: the correctly rounded quotient
    of 100325 by 100000, that is 4518236326159450 * 2^-52. *)
Definition AIR_DATA_SCALE : spec_float :=
  Eval vm_compute in SFdiv prec emax (double_of_Z 100325) (double_of_Z 100000).

(** Integer part of a [double], rounding toward zero: the first half of a
    conversion from [double] to an integer type. *)
Definition Z_of_double (x : spec_float) : Z :=
  match x with
  | S754_finite s m e =>
      let a := match e with
               | Z0 => Zpos m
               | Zpos _ => Z.shiftl (Zpos m) e
               | Zneg p => Z.shiftr (Zpos m) (Zpos p)
               end in
      if s then - a else a
  | _ => 0
  end.

(** The value of the expression [in->tempC * AIR_DATA_SCALE], before it is
    stored: its integer part.  The store into the 16-bit field then applies
    [narrow F_tempC].  ISO C leaves the conversion of a [double] whose
    integer part does not fit the destination undefined; the model takes
    what compilers generate, a conversion to a wider integer followed by
    the integer narrowing, so the stored value is the integer part modulo
    2^16. *)
Definition scaled_tempC (t : Z) : Z :=
  Z_of_double (SFmul prec emax (double_of_Z t) AIR_DATA_SCALE).

(** ** The machine: globals, locals of [main], interrupt mask and trace *)

(** The three [AirData_t] objects of the program; a pointer is the name of
    the object it points to. *)
Inductive object : Type :=
| Obj_RawAirData            (* global, line 48 *)
| Obj_FilteredAirData       (* local of main, line 186 *)
| Obj_CompensatedAirData.   (* local of main, line 187 *)

Inductive event : Type :=
| Ev_Fault (faultCode : Z)                      (* a call Fault(faultCode) *)
| Ev_Store (p : object) (f : field) (v : Z)     (* p->f = v *)
| Ev_Processed (v : Z)                          (* AirDataProcessed = v *)
| Ev_DI_T1                                      (* mask the timer interrupt *)
| Ev_EI_T1.                                     (* unmask the timer interrupt *)

Record machine : Type := mkMachine {
  RawAirData : AirData_t;
  AirDataProcessed : Z;          (* int, 1 = consumed, 0 = a sample is waiting *)
  FilteredAirData : AirData_t;
  CompensatedAirData : AirData_t;
  err : Z;                       (* int *)
  FilterErrorCount : Z;          (* int *)
  T1_masked : bool;
  trace : list event             (* oldest first *)
}.

Definition obj_val (p : object) (m : machine) : AirData_t :=
  match p with
  | Obj_RawAirData => RawAirData m
  | Obj_FilteredAirData => FilteredAirData m
  | Obj_CompensatedAirData => CompensatedAirData m
  end.

Definition obj_set (p : object) (d : AirData_t) (m : machine) : machine :=
  match p with
  | Obj_RawAirData =>
      mkMachine d (AirDataProcessed m) (FilteredAirData m) (CompensatedAirData m)
                (err m) (FilterErrorCount m) (T1_masked m) (trace m)
  | Obj_FilteredAirData =>
      mkMachine (RawAirData m) (AirDataProcessed m) d (CompensatedAirData m)
                (err m) (FilterErrorCount m) (T1_masked m) (trace m)
  | Obj_CompensatedAirData =>
      mkMachine (RawAirData m) (AirDataProcessed m) (FilteredAirData m) d
                (err m) (FilterErrorCount m) (T1_masked m) (trace m)
  end.

Definition emit_ev (e : event) (m : machine) : machine :=
  mkMachine (RawAirData m) (AirDataProcessed m) (FilteredAirData m)
            (CompensatedAirData m) (err m) (FilterErrorCount m) (T1_masked m)
            (trace m ++ [e]).

(** The state at program start: the initialisers of lines 48-49 and
    186-189, the timer interrupt unmasked, nothing done yet. *)
Definition initial_machine : machine :=
  mkMachine (mkAirData 1 1000 100000) 1
            (mkAirData 0 0 0) (mkAirData 1 1000 1000000)
            0 0 false [].

(** The state at program start with another filtered, or raw, sample. *)
Definition with_filtered (d : AirData_t) : machine :=
  obj_set Obj_FilteredAirData d initial_machine.

Definition with_raw (d : AirData_t) : machine :=
  obj_set Obj_RawAirData d initial_machine.

(** ** State monad *)

Definition M (A : Type) : Type := machine -> A * machine.

Definition ret {A : Type} (a : A) : M A := fun m => (a, m).

Definition bind {A B : Type} (c : M A) (k : A -> M B) : M B :=
  fun m => let (a, m') := c m in k a m'.

Notation "x <- c ;; k" := (bind c (fun x => k))
  (at level 61, c at next level, right associativity).
Notation "c ;; k" := (bind c (fun _ => k))
  (at level 61, right associativity).

Definition exec {A : Type} (c : M A) (m : machine) : machine := snd (c m).
Definition result {A : Type} (c : M A) (m : machine) : A := fst (c m).

(** [p->f] *)
Definition load (p : object) (f : field) : M Z :=
  fun m => (get_field f (obj_val p m), m).

(** [p->f = v] *)
Definition store (p : object) (f : field) (v : Z) : M unit :=
  fun m =>
    let w := narrow f v in
    (tt, emit_ev (Ev_Store p f w) (obj_set p (set_field f w (obj_val p m)) m)).

Definition get_AirDataProcessed : M Z := fun m => (AirDataProcessed m, m).

Definition set_AirDataProcessed (v : Z) : M unit :=
  fun m =>
    (tt, emit_ev (Ev_Processed v)
           (mkMachine (RawAirData m) v (FilteredAirData m) (CompensatedAirData m)
                      (err m) (FilterErrorCount m) (T1_masked m) (trace m))).

Definition get_err : M Z := fun m => (err m, m).

Definition set_err (v : Z) : M unit :=
  fun m =>
    (tt, mkMachine (RawAirData m) (AirDataProcessed m) (FilteredAirData m)
           (CompensatedAirData m) v (FilterErrorCount m) (T1_masked m) (trace m)).

Definition get_FilterErrorCount : M Z := fun m => (FilterErrorCount m, m).

Definition set_FilterErrorCount (v : Z) : M unit :=
  fun m =>
    (tt, mkMachine (RawAirData m) (AirDataProcessed m) (FilteredAirData m)
           (CompensatedAirData m) (err m) v (T1_masked m) (trace m)).

Definition set_T1_masked (b : bool) : M unit :=
  fun m =>
    (tt, mkMachine (RawAirData m) (AirDataProcessed m) (FilteredAirData m)
           (CompensatedAirData m) (err m) (FilterErrorCount m) b (trace m)).

(** The macros [DI_T1] and [EI_T1]. *)
Definition DI_T1 : M unit := fun m => set_T1_masked true (emit_ev Ev_DI_T1 m).
Definition EI_T1 : M unit := fun m => set_T1_masked false (emit_ev Ev_EI_T1 m).

(** ** [Fault] (lines 127-133): the body is empty, the call returns. *)
Definition Fault (faultCode : Z) : M unit :=
  fun m => (tt, emit_ev (Ev_Fault faultCode) m).

(** ** [Tick_10ms] (lines 61-76)

    [ReadPort8], [ReadPort16] and [ReadPort32] belong to the hardware; what
    they return in one invocation is the argument. *)
Record port_A : Type := mkPort {
  ReadPort8 : Z;
  ReadPort16 : Z;
  ReadPort32 : Z
}.

Definition Tick_10ms (io : port_A) : M unit :=
  p <- get_AirDataProcessed ;;
  (if negb (p =? 1) then Fault FAULT_OVERRUN else set_AirDataProcessed 0) ;;
  store Obj_RawAirData F_errorWord (ReadPort8 io) ;;
  store Obj_RawAirData F_tempC (ReadPort16 io) ;;
  store Obj_RawAirData F_speed (ReadPort32 io).

(** ** [filterAirData] (lines 88-118) *)
Definition filterAirData (inp out : object) : M Z :=
  DI_T1 ;;
  e <- load inp F_errorWord ;;
  store out F_errorWord e ;;
  t <- load inp F_tempC ;;
  store out F_tempC (scaled_tempC t) ;;
  s <- load inp F_speed ;;
  store out F_speed s ;;
  set_AirDataProcessed 1 ;;
  EI_T1 ;;
  e' <- load out F_errorWord ;;
  if negb (e' =? 0) then ret FAULT_AIRFILTER else ret 0.

(** ** [compensateAirData] (lines 148-174)

    The parameter list of the source, [(&in, &out)], stands for two
    [AirData_t] pointers, and [errWord] for the field [errorWord], the only
    error field of the structure.  The division is one of [unsigned long]
    operands, so it is the quotient of two non-negative numbers. *)
Definition compensateAirData (inp out : object) : M Z :=
  t <- load inp F_tempC ;;
  if t =? 0 then ret FAULT_COMPENSATE_DIV
  else
    s <- load inp F_speed ;;
    let temp := to_ulong (s / t) in
    if temp >? 65535 then ret FAULT_COMPENSATE_RANGE
    else
      store out F_tempC temp ;;
      s' <- load inp F_speed ;;
      store out F_speed s' ;;
      e <- load inp F_errorWord ;;
      store out F_errorWord e ;;
      ret 0.

(** ** The loop of [main] (lines 192-220)

    [FilterErrorCount] is an [int].  ISO C only promises that [INT_MAX] is
    at least 32767, so the width is a parameter; an increment at [INT_MAX]
    wraps to the most negative value, as two's complement hardware does. *)
Section IntWidth.

Variable INT_MAX : Z.

(** [x++] on an [int]. *)
Definition int_incr (x : Z) : Z :=
  if x <? INT_MAX then x + 1 else - INT_MAX - 1.

(** Lines 200-205. *)
Definition debounce : M unit :=
  e <- get_err ;;
  if negb (e =? 0) then
    c <- get_FilterErrorCount ;;
    set_FilterErrorCount (int_incr c) ;;
    c' <- get_FilterErrorCount ;;
    if c' >? 5 then Fault FAULT_AIRFILTER else ret tt
  else
    set_FilterErrorCount 0.

(** One pass through the body of [while(1)]. *)
Definition main_loop_body : M unit :=
  e <- filterAirData Obj_RawAirData Obj_FilteredAirData ;;
  set_err e ;;
  debounce ;;
  e2 <- compensateAirData Obj_FilteredAirData Obj_CompensatedAirData ;;
  set_err e2 ;;
  e3 <- get_err ;;
  if negb (e3 =? 0) then Fault e3 else ret tt.

(** What happens while the program runs: the timer interrupt fires, or the
    loop makes one pass.  The interrupt is masked while [filterAirData]
    reads the shared sample, and the rest of a pass reads and writes locals
    of [main] only, so an interrupt that arrives during a pass acts on the
    state like one that arrives right before the pass (when it comes before
    the call of [filterAirData]) or right after it (when it comes later). *)
Inductive sched_event : Type :=
| IRQ_T1 (io : port_A)
| LoopPass.

Fixpoint run (sch : list sched_event) : M unit :=
  match sch with
  | [] => ret tt
  | IRQ_T1 io :: rest => Tick_10ms io ;; run rest
  | LoopPass :: rest => main_loop_body ;; run rest
  end.

(** The values returned by [filterAirData] in the passes of a schedule. *)
Fixpoint filter_results (sch : list sched_event) (m : machine) : list Z :=
  match sch with
  | [] => []
  | IRQ_T1 io :: rest => filter_results rest (exec (Tick_10ms io) m)
  | LoopPass :: rest =>
      result (filterAirData Obj_RawAirData Obj_FilteredAirData) m
        :: filter_results rest (exec main_loop_body m)
  end.

End IntWidth.

(** ** Observations on traces *)

Definition field_eq_dec (a b : field) : {a = b} + {a <> b}.
Proof. decide equality. Defined.

(** The event is a call of [Fault] with the given code. *)
Definition is_fault (code : Z) (e : event) : bool :=
  match e with
  | Ev_Fault c => c =? code
  | _ => false
  end.

(** How often [Fault] has been called with a given code so far. *)
Definition fault_total (code : Z) (m : machine) : nat :=
  length (filter (is_fault code) (trace m)).

(** The events a computation appends to the trace. *)
Definition emitted {A : Type} (c : M A) (m : machine) : list event :=
  skipn (length (trace m)) (trace (exec c m)).

(** How often a computation calls [Fault] with a given code. *)
Definition faults_reported {A : Type} (code : Z) (c : M A) (m : machine) : nat :=
  length (filter (is_fault code) (emitted c m)).

(** The sample of [Tick_10ms] is waiting for the filter. *)
Definition sample_pending (m : machine) : bool := negb (AirDataProcessed m =? 1).

(** The number of interrupts of a schedule that find the previous sample
    still waiting: every interrupt that directly follows another one, and
    the first one when a sample waits at the start. *)
Fixpoint overruns_expected (pending : bool) (sch : list sched_event) : nat :=
  match sch with
  | [] => O
  | IRQ_T1 _ :: rest => ((if pending then 1 else 0) + overruns_expected true rest)%nat
  | LoopPass :: rest => overruns_expected false rest
  end.

(** Position of the first event of a kind in a trace. *)
Fixpoint find_index (p : event -> bool) (tr : list event) : option nat :=
  match tr with
  | [] => None
  | e :: rest => if p e then Some O else option_map S (find_index p rest)
  end.

(** Both kinds of event occur, the first [p] before the first [q]. *)
Definition occurs_before (p q : event -> bool) (tr : list event) : bool :=
  match find_index p tr, find_index q tr with
  | Some i, Some j => Nat.ltb i j
  | _, _ => false
  end.

Definition is_sample_available_set (e : event) : bool :=
  match e with
  | Ev_Processed v => v =? 0
  | _ => false
  end.

Definition is_raw_store (f : field) (e : event) : bool :=
  match e with
  | Ev_Store Obj_RawAirData g _ => if field_eq_dec f g then true else false
  | _ => false
  end.

(** The sample that [Tick_10ms] leaves in [RawAirData]. *)
Definition sample_of_port (io : port_A) : AirData_t :=
  mkAirData (to_uchar (ReadPort8 io)) (to_ushort (ReadPort16 io))
            (to_ulong (ReadPort32 io)).

(** ** The scaling, in the words of the specification

    The input multiplied by 1.00325 = 100325/100000, truncated to an
    integer and to the 16 bits of the output field. *)
Definition scale_spec (t : Z) : Z := (t * 100325 / 100000) mod 2 ^ 16.

(** ** The debounce policy, in the words of the specification

    On a filter error the streak grows by one and the fault is reported
    when the streak is above 5; on a success the streak is 0 again.
    [escalations] counts the reports for a list of filter results,
    [streak_after] gives the streak at the end. *)
Fixpoint escalations (streak : Z) (results : list Z) : nat :=
  match results with
  | [] => O
  | r :: rest =>
      if r =? 0 then escalations 0 rest
      else ((if streak + 1 >? 5 then 1 else 0) + escalations (streak + 1) rest)%nat
  end.

Fixpoint streak_after (streak : Z) (results : list Z) : Z :=
  match results with
  | [] => streak
  | r :: rest =>
      if r =? 0 then streak_after 0 rest else streak_after (streak + 1) rest
  end.

(** ** Order of the writes of [Tick_10ms]

    In the events of one invocation: the flag is set to "sample waiting"
    after, or before, the writes of all three fields of [RawAirData]. *)
Definition available_set_after_fields (tr : list event) : Prop :=
  forall f, occurs_before (is_raw_store f) is_sample_available_set tr = true.

Definition available_set_before_fields (tr : list event) : Prop :=
  forall f, occurs_before is_sample_available_set (is_raw_store f) tr = true.

(** A check of a predicate on the [n] integers from [z] on. *)
Fixpoint all_from (n : nat) (z : Z) (p : Z -> bool) : bool :=
  match n with
  | O => true
  | S k => p z && all_from k (z + 1) p
  end.

(** ** Further observations *)

(** The event is a call of [Fault], whatever the code. *)
Definition is_any_fault (e : event) : bool :=
  match e with
  | Ev_Fault _ => true
  | _ => false
  end.

(** The rest of a pass of the loop, after the call of [filterAirData] has
    returned [e] (lines 197-215 from the assignment to [err] on). *)
Definition loop_tail (INT_MAX : Z) (e : Z) : M unit :=
  set_err e ;;
  debounce INT_MAX ;;
  e2 <- compensateAirData Obj_FilteredAirData Obj_CompensatedAirData ;;
  set_err e2 ;;
  e3 <- get_err ;;
  if negb (e3 =? 0) then Fault e3 else ret tt.

(** No interrupt of the schedule finds a sample waiting: none directly
    follows another one, and the first finds none when [pending] is off. *)
Fixpoint every_sample_served (pending : bool) (sch : list sched_event) : bool :=
  match sch with
  | [] => true
  | IRQ_T1 _ :: rest => negb pending && every_sample_served true rest
  | LoopPass :: rest => every_sample_served false rest
  end.

(** The sample delivered by the last interrupt of a schedule, or [d] when
    the schedule has none. *)
Fixpoint last_sample (sch : list sched_event) (d : AirData_t) : AirData_t :=
  match sch with
  | [] => d
  | IRQ_T1 io :: rest => last_sample rest (sample_of_port io)
  | LoopPass :: rest => last_sample rest d
  end.

(** What holds of the machine between the events of a schedule: the three
    objects hold values of their field types, the flag is 0 or 1, the
    timer interrupt is unmasked, and [err] holds a code that
    [compensateAirData] returns. *)
Definition machine_ok (m : machine) : Prop :=
  wf_AirData (RawAirData m) /\
  wf_AirData (FilteredAirData m) /\
  wf_AirData (CompensatedAirData m) /\
  (AirDataProcessed m = 0 \/ AirDataProcessed m = 1) /\
  T1_masked m = false /\
  (err m = 0 \/ err m = FAULT_COMPENSATE_DIV \/ err m = FAULT_COMPENSATE_RANGE).

(** * Proofs *)

(** ** Integer conversions *)

Lemma to_uchar_id (z : Z) : is_uchar z -> to_uchar z = z.
Proof. unfold is_uchar, to_uchar. intros H. apply Z.mod_small. exact H. Qed.

Lemma to_ushort_id (z : Z) : is_ushort z -> to_ushort z = z.
Proof. unfold is_ushort, to_ushort. intros H. apply Z.mod_small. exact H. Qed.

Lemma to_ulong_id (z : Z) : is_ulong z -> to_ulong z = z.
Proof. unfold is_ulong, to_ulong. intros H. apply Z.mod_small. exact H. Qed.

Lemma wf_obj_fields (d : AirData_t) :
  wf_AirData d ->
  to_uchar (errorWord d) = errorWord d /\
  to_ushort (tempC d) = tempC d /\
  to_ulong (speed d) = speed d.
Proof.
  intros (He & Ht & Hs).
  auto using to_uchar_id, to_ushort_id, to_ulong_id.
Qed.

(** The quotient of an [unsigned long] by a non-zero [unsigned short] is an
    [unsigned long] again. *)
Lemma ulong_quotient (s t : Z) :
  is_ulong s -> 0 < t -> to_ulong (s / t) = s / t.
Proof.
  intros Hs Ht. apply to_ulong_id. unfold is_ulong in *.
  split.
  - apply Z.div_pos; lia.
  - apply Z.le_lt_trans with s; [ | lia ].
    apply Z.div_le_upper_bound; nia.
Qed.

(** ** Traces *)

Lemma skipn_length_app {A : Type} (l k : list A) :
  skipn (length l) (l ++ k) = k.
Proof. induction l as [ | a l IH ]; simpl; auto. Qed.

(** Unfolding of the monad and of the accessors of the machine. *)
Ltac unfold_monad :=
  cbv [bind ret exec result load store Fault DI_T1 EI_T1
       get_AirDataProcessed set_AirDataProcessed get_err set_err
       get_FilterErrorCount set_FilterErrorCount set_T1_masked
       emit_ev obj_val obj_set get_field set_field narrow
       RawAirData AirDataProcessed FilteredAirData CompensatedAirData
       err FilterErrorCount T1_masked trace
       errorWord tempC speed fst snd].

(** ** [compensateAirData] *)

(** [C2]: a filtered sample with [tempC = 0] makes [compensateAirData]
    return [FAULT_COMPENSATE_DIV] without any effect: the machine after the
    call is the machine before it, so no field of the output object (or of
    anything else) has changed and no store is in the trace. *)
Theorem compensate_divide_by_zero :
  forall (inp out : object) (m : machine),
    tempC (obj_val inp m) = 0 ->
    compensateAirData inp out m = (FAULT_COMPENSATE_DIV, m) /\
    obj_val out (exec (compensateAirData inp out) m) = obj_val out m /\
    emitted (compensateAirData inp out) m = [].
Proof.
  intros inp out m H.
  assert (E : compensateAirData inp out m = (FAULT_COMPENSATE_DIV, m)).
  { unfold compensateAirData, bind, load. simpl. rewrite H. reflexivity. }
  unfold emitted, exec. rewrite E. simpl.
  repeat split.
  rewrite <- (app_nil_r (trace m)) at 2. apply skipn_length_app.
Qed.

Lemma compensate_guard_passed (inp out : object) (m : machine) :
  tempC (obj_val inp m) <> 0 ->
  compensateAirData inp out m =
    (let s := speed (obj_val inp m) in
     let temp := to_ulong (s / tempC (obj_val inp m)) in
     if temp >? 65535 then ret FAULT_COMPENSATE_RANGE
     else
       store out F_tempC temp ;;
       s' <- load inp F_speed ;;
       store out F_speed s' ;;
       e <- load inp F_errorWord ;;
       store out F_errorWord e ;;
       ret 0) m.
Proof.
  intros H. apply Z.eqb_neq in H.
  unfold compensateAirData at 1. unfold bind at 1. unfold load at 1.
  cbv beta iota. cbv [get_field]. rewrite H.
  unfold bind at 1. unfold load at 1. cbv beta iota. reflexivity.
Qed.

(** [C3]: when [tempC] is not 0 and the quotient [speed / tempC] is above
    65535, [compensateAirData] returns [FAULT_COMPENSATE_RANGE] and the
    machine, with it the output object, is as before the call. *)
Theorem compensate_range_overflow :
  forall (inp out : object) (m : machine),
    wf_AirData (obj_val inp m) ->
    tempC (obj_val inp m) <> 0 ->
    65535 < speed (obj_val inp m) / tempC (obj_val inp m) ->
    compensateAirData inp out m = (FAULT_COMPENSATE_RANGE, m) /\
    obj_val out (exec (compensateAirData inp out) m) = obj_val out m.
Proof.
  intros inp out m (_ & Ht & Hs) Hnz Hq.
  assert (E : compensateAirData inp out m = (FAULT_COMPENSATE_RANGE, m)).
  { rewrite compensate_guard_passed by exact Hnz. cbv zeta.
    rewrite ulong_quotient; [ | exact Hs | unfold is_ushort in Ht; lia ].
    destruct (Z.gtb_spec (speed (obj_val inp m) / tempC (obj_val inp m)) 65535);
      [ reflexivity | lia ]. }
  split; [ exact E | ]. unfold exec. rewrite E. reflexivity.
Qed.

(** [C4]: when [tempC] is not 0 and the quotient [speed / tempC] is at most
    65535, [compensateAirData] returns 0, and afterwards the output object
    holds the quotient in [tempC] and the input's [speed] and [errorWord]. *)
Theorem compensate_success :
  forall (inp out : object) (m : machine),
    wf_AirData (obj_val inp m) ->
    tempC (obj_val inp m) <> 0 ->
    speed (obj_val inp m) / tempC (obj_val inp m) <= 65535 ->
    result (compensateAirData inp out) m = FAULT_NONE /\
    obj_val out (exec (compensateAirData inp out) m) =
      mkAirData (errorWord (obj_val inp m))
                (speed (obj_val inp m) / tempC (obj_val inp m))
                (speed (obj_val inp m)).
Proof.
  intros inp out m Hwf Hnz Hq.
  destruct (wf_obj_fields _ Hwf) as (Ee & _ & Es).
  destruct Hwf as (_ & Ht & Hs).
  assert (Hpos : 0 < tempC (obj_val inp m)) by (unfold is_ushort in Ht; lia).
  assert (Hq0 : 0 <= speed (obj_val inp m) / tempC (obj_val inp m))
    by (apply Z.div_pos; unfold is_ulong in Hs; lia).
  assert (En : to_ushort (speed (obj_val inp m) / tempC (obj_val inp m))
               = speed (obj_val inp m) / tempC (obj_val inp m))
    by (apply to_ushort_id; unfold is_ushort; lia).
  unfold result, exec. rewrite compensate_guard_passed by exact Hnz. cbv zeta.
  rewrite ulong_quotient by assumption.
  destruct (Z.gtb_spec (speed (obj_val inp m) / tempC (obj_val inp m)) 65535);
    [ lia | ].
  revert Ee Es En.
  generalize (speed (obj_val inp m) / tempC (obj_val inp m)). intros q.
  destruct m as [raw p fil cmp e c msk tr].
  destruct inp, out; unfold_monad; cbv [FAULT_NONE];
    intros Ee Es En; rewrite ?Ee, ?Es, ?En; split; reflexivity.
Qed.

(** ** The scaling of [filterAirData] *)

(** [AIR_DATA_SCALE] has a 53-bit mantissa and lies within half a unit in
    the last place of 100325/100000. *)
Lemma AIR_DATA_SCALE_nearest :
  exists mant : positive,
    AIR_DATA_SCALE = S754_finite false mant (-52) /\
    2 ^ 52 <= Zpos mant < 2 ^ 53 /\
    2 * Z.abs (Zpos mant * 100000 - 100325 * 2 ^ 52) <= 100000.
Proof.
  eexists. split; [ reflexivity | ]. split; [ lia | ].
  vm_compute. discriminate.
Qed.

Lemma all_from_spec (p : Z -> bool) (n : nat) :
  forall z, all_from n z p = true ->
  forall v, z <= v < z + Z.of_nat n -> p v = true.
Proof.
  induction n as [ | k IH ]; intros z H v Hv.
  - simpl in Hv. lia.
  - simpl in H. apply andb_true_iff in H. destruct H as (Hz & Hrest).
    destruct (Z.eq_dec v z) as [ -> | Hne ].
    + exact Hz.
    + apply (IH (z + 1)); [ exact Hrest | lia ].
Qed.

(** On every [unsigned short] the binary64 product, cut to its integer
    part, is the integer part of the exact product with 100325/100000: the
    rounding of the constant and of the product never crosses an integer.
    Checked on all 65536 values. *)
Lemma scaled_tempC_exact (t : Z) :
  is_ushort t -> scaled_tempC t = t * 100325 / 100000.
Proof.
  intros Ht.
  assert (H : all_from (Z.to_nat 65536) 0
                (fun v => scaled_tempC v =? v * 100325 / 100000) = true)
    by (vm_compute; reflexivity).
  apply Z.eqb_eq.
  apply (all_from_spec _ _ _ H).
  unfold is_ushort in Ht. rewrite Z2Nat.id; lia.
Qed.

(** ** [filterAirData] *)

(** The whole effect of one call, in terms of the input object before the
    call.  It holds as well when both pointers name the same object. *)
Lemma filterAirData_effect (inp out : object) (m : machine) :
  let i := obj_val inp m in
  let o := mkAirData (to_uchar (errorWord i))
                     (to_ushort (scaled_tempC (tempC i)))
                     (to_ulong (speed i)) in
  let m' := exec (filterAirData inp out) m in
  result (filterAirData inp out) m =
    (if negb (to_uchar (errorWord i) =? 0) then FAULT_AIRFILTER else 0) /\
  obj_val out m' = o /\
  (forall p, p <> out -> obj_val p m' = obj_val p m) /\
  AirDataProcessed m' = 1 /\
  T1_masked m' = false /\
  err m' = err m /\
  FilterErrorCount m' = FilterErrorCount m /\
  trace m' = trace m ++
    [Ev_DI_T1;
     Ev_Store out F_errorWord (errorWord o);
     Ev_Store out F_tempC (tempC o);
     Ev_Store out F_speed (speed o);
     Ev_Processed 1;
     Ev_EI_T1].
Proof.
  destruct m as [raw p fil cmp e c msk tr].
  destruct raw as [re rt rs], fil as [fe ft fs], cmp as [ce ct cs].
  destruct inp, out; cbv zeta; unfold filterAirData; unfold_monad;
    rewrite <- !app_assoc; cbn [app];
    match goal with |- context [negb ?b] => destruct b end;
    cbn [negb]; unfold_monad;
    (repeat split; try reflexivity);
    intros q Hq; destruct q; try reflexivity; congruence.
Qed.

(** [C5]: [filterAirData] copies [errorWord] and [speed], stores in
    [tempC] the input's [tempC] times 1.00325 cut to an integer (and to 16
    bits), and returns [FAULT_AIRFILTER] exactly when [errorWord] is not 0,
    and 0 otherwise.  Cut, not rounded: where the product fits the field,
    the stored value [r] satisfies [r <= tempC * 1.00325 < r + 1]. *)
Theorem filter_output :
  forall (inp out : object) (m : machine),
    wf_AirData (obj_val inp m) ->
    let i := obj_val inp m in
    let m' := exec (filterAirData inp out) m in
    let r := result (filterAirData inp out) m in
    obj_val out m' = mkAirData (errorWord i) (scale_spec (tempC i)) (speed i) /\
    (tempC i * 100325 / 100000 < 2 ^ 16 ->
     100000 * tempC (obj_val out m') <= 100325 * tempC i
       < 100000 * (tempC (obj_val out m') + 1)) /\
    (r = FAULT_AIRFILTER <-> errorWord i <> 0) /\
    (r = FAULT_NONE <-> errorWord i = 0).
Proof.
  intros inp out m Hwf. cbv zeta.
  destruct (wf_obj_fields _ Hwf) as (Ee & _ & Es).
  destruct Hwf as (_ & Ht & _).
  destruct (filterAirData_effect inp out m) as (Hr & Ho & _).
  cbv zeta in Hr, Ho. rewrite Hr, Ho, Ee, Es.
  rewrite (scaled_tempC_exact _ Ht).
  unfold scale_spec, to_ushort, FAULT_AIRFILTER, FAULT_NONE. cbn [tempC].
  split; [ reflexivity | ].
  split.
  - intros Hfit.
    assert (Hq0 : 0 <= tempC (obj_val inp m) * 100325 / 100000)
      by (apply Z.div_pos; unfold is_ushort in Ht; lia).
    rewrite Z.mod_small by lia.
    pose proof (Z.mul_div_le (tempC (obj_val inp m) * 100325) 100000).
    pose proof (Z.mul_succ_div_gt (tempC (obj_val inp m) * 100325) 100000).
    lia.
  - destruct (Z.eqb_spec (errorWord (obj_val inp m)) 0) as [ E0 | E0 ];
      cbn [negb]; split; split; intros; try lia; try congruence.
Qed.

(** [C8]: two calls of [filterAirData] in a row on the same input object,
    nothing else running in between, leave the same output object and
    return the same code, and the input object is what it was before the
    first call.  Input and output are two objects, as in the call of
    [main]. *)
Theorem filter_twice_same :
  forall (inp out : object) (m : machine),
    inp <> out ->
    let m1 := exec (filterAirData inp out) m in
    let m2 := exec (filterAirData inp out) m1 in
    obj_val out m2 = obj_val out m1 /\
    result (filterAirData inp out) m1 = result (filterAirData inp out) m /\
    obj_val inp m1 = obj_val inp m /\
    obj_val inp m2 = obj_val inp m.
Proof.
  intros inp out m Hne. cbv zeta.
  destruct (filterAirData_effect inp out m) as (Hr1 & Ho1 & Hk1 & _).
  destruct (filterAirData_effect inp out (exec (filterAirData inp out) m))
    as (Hr2 & Ho2 & Hk2 & _).
  cbv zeta in *.
  assert (Hi1 : obj_val inp (exec (filterAirData inp out) m) = obj_val inp m)
    by (apply Hk1; exact Hne).
  rewrite Hi1 in Hr2, Ho2.
  repeat split.
  - rewrite Ho2, Ho1. reflexivity.
  - rewrite Hr2, Hr1. reflexivity.
  - exact Hi1.
  - rewrite Hk2 by exact Hne. exact Hi1.
Qed.

(** [C9]: [filterAirData] has no range check on the scaled temperature.
    For an input [tempC] whose product with 1.00325 is above 65535, the
    field receives the integer part of the product modulo 2^16; from
    65324 on the integer part is above 65535 and the field holds it less
    65536.  The code returned depends on [errorWord] alone: it is 0 or
    [FAULT_AIRFILTER], never a range code. *)
Theorem filter_scaling_unguarded :
  forall (inp out : object) (m : machine),
    wf_AirData (obj_val inp m) ->
    65535 * 100000 < tempC (obj_val inp m) * 100325 ->
    let i := obj_val inp m in
    let m' := exec (filterAirData inp out) m in
    let r := result (filterAirData inp out) m in
    scaled_tempC (tempC i) = tempC i * 100325 / 100000 /\
    65535 <= scaled_tempC (tempC i) /\
    tempC (obj_val out m') = scaled_tempC (tempC i) mod 2 ^ 16 /\
    (65324 <= tempC i ->
     65535 < scaled_tempC (tempC i) /\
     tempC (obj_val out m') = scaled_tempC (tempC i) - 65536) /\
    r = (if errorWord i =? 0 then FAULT_NONE else FAULT_AIRFILTER) /\
    r <> FAULT_COMPENSATE_RANGE.
Proof.
  intros inp out m Hwf Hbig. cbv zeta.
  destruct (wf_obj_fields _ Hwf) as (Ee & _ & _).
  destruct Hwf as (_ & Ht & _).
  destruct (filterAirData_effect inp out m) as (Hr & Ho & _).
  cbv zeta in Hr, Ho. rewrite Hr, Ho, Ee. cbn [tempC].
  pose proof (scaled_tempC_exact _ Ht) as Hex.
  set (t := tempC (obj_val inp m)) in *.
  assert (Hlo : 65535 <= t * 100325 / 100000)
    by (apply Z.div_le_lower_bound; lia).
  assert (Hhi : t * 100325 / 100000 < 2 * 65536)
    by (apply Z.div_lt_upper_bound; unfold is_ushort in Ht; lia).
  rewrite Hex. unfold to_ushort.
  repeat split; try assumption.
  - apply Z.lt_le_trans with (65324 * 100325 / 100000); [ reflexivity | ].
    apply Z.div_le_mono; lia.
  - assert (65536 <= t * 100325 / 100000).
    { apply Z.le_trans with (65324 * 100325 / 100000); [ discriminate | ].
      apply Z.div_le_mono; lia. }
    symmetry. apply Zmod_unique with 1; lia.
  - destruct (errorWord (obj_val inp m) =? 0); reflexivity.
  - destruct (errorWord (obj_val inp m) =? 0); discriminate.
Qed.

(** ** [Tick_10ms] *)

(** The whole effect of one invocation. *)
Lemma Tick_10ms_effect (io : port_A) (m : machine) :
  exec (Tick_10ms io) m =
    mkMachine (sample_of_port io)
              (if sample_pending m then AirDataProcessed m else 0)
              (FilteredAirData m) (CompensatedAirData m)
              (err m) (FilterErrorCount m) (T1_masked m)
              (trace m ++
                 [if sample_pending m then Ev_Fault FAULT_OVERRUN
                  else Ev_Processed 0;
                  Ev_Store Obj_RawAirData F_errorWord (to_uchar (ReadPort8 io));
                  Ev_Store Obj_RawAirData F_tempC (to_ushort (ReadPort16 io));
                  Ev_Store Obj_RawAirData F_speed (to_ulong (ReadPort32 io))]).
Proof.
  destruct m as [raw p fil cmp e c msk tr].
  unfold Tick_10ms, sample_pending, sample_of_port. unfold_monad.
  destruct (negb (p =? 1)); unfold_monad;
    rewrite <- !app_assoc; reflexivity.
Qed.

Lemma Tick_10ms_emitted (io : port_A) (m : machine) :
  emitted (Tick_10ms io) m =
    [if sample_pending m then Ev_Fault FAULT_OVERRUN else Ev_Processed 0;
     Ev_Store Obj_RawAirData F_errorWord (to_uchar (ReadPort8 io));
     Ev_Store Obj_RawAirData F_tempC (to_ushort (ReadPort16 io));
     Ev_Store Obj_RawAirData F_speed (to_ulong (ReadPort32 io))].
Proof.
  unfold emitted. rewrite Tick_10ms_effect. cbn [trace].
  apply skipn_length_app.
Qed.

Lemma Tick_10ms_pending (io : port_A) (m : machine) :
  sample_pending (exec (Tick_10ms io) m) = true.
Proof.
  rewrite Tick_10ms_effect. unfold sample_pending. cbn [AirDataProcessed].
  destruct (negb (AirDataProcessed m =? 1)) eqn:E; [ exact E | reflexivity ].
Qed.

(** [C10]: every call of [filterAirData] ends with [AirDataProcessed = 1],
    whether it returns 0 or [FAULT_AIRFILTER] (as it does for the sample
    the program starts with), so the next [Tick_10ms] finds no sample
    waiting and reports no overrun. *)
Theorem filter_always_consumes :
  forall (inp out : object) (m : machine) (io : port_A),
    let m' := exec (filterAirData inp out) m in
    let r := result (filterAirData inp out) m in
    (r = FAULT_AIRFILTER \/ r = FAULT_NONE) /\
    AirDataProcessed m' = 1 /\
    sample_pending m' = false /\
    In (Ev_Processed 1) (emitted (filterAirData inp out) m) /\
    faults_reported FAULT_OVERRUN (Tick_10ms io) m' = O /\
    result (filterAirData Obj_RawAirData Obj_FilteredAirData) initial_machine
      = FAULT_AIRFILTER.
Proof.
  intros inp out m io. cbv zeta.
  destruct (filterAirData_effect inp out m)
    as (Hr & _ & _ & Hp & _ & _ & _ & Htr).
  cbv zeta in *.
  assert (Hpend : sample_pending (exec (filterAirData inp out) m) = false)
    by (unfold sample_pending; rewrite Hp; reflexivity).
  repeat split.
  - rewrite Hr. destruct (negb _); [ left | right ]; reflexivity.
  - exact Hp.
  - exact Hpend.
  - unfold emitted. rewrite Htr, skipn_length_app. simpl. tauto.
  - unfold faults_reported. rewrite Tick_10ms_emitted, Hpend. reflexivity.
Qed.

(** ** Sequencing and counting *)

Lemma exec_bind {A B : Type} (c : M A) (k : A -> M B) (m : machine) :
  exec (bind c k) m = exec (k (result c m)) (exec c m).
Proof. unfold exec, result, bind. destruct (c m). reflexivity. Qed.

Lemma fault_total_app (code : Z) (m m' : machine) (l : list event) :
  trace m' = trace m ++ l ->
  fault_total code m' =
    (fault_total code m + length (filter (is_fault code) l))%nat.
Proof.
  intros H. unfold fault_total. rewrite H, filter_app, length_app. reflexivity.
Qed.

Lemma faults_reported_total {A : Type} (code : Z) (c : M A) (m : machine) :
  (exists l, trace (exec c m) = trace m ++ l) ->
  fault_total code (exec c m) =
    (fault_total code m + faults_reported code c m)%nat.
Proof.
  intros (l & H). unfold faults_reported, emitted.
  rewrite H, skipn_length_app. apply fault_total_app. exact H.
Qed.

Lemma Tick_10ms_extends (io : port_A) (m : machine) :
  exists l, trace (exec (Tick_10ms io) m) = trace m ++ l.
Proof. rewrite Tick_10ms_effect. cbn [trace]. eexists. reflexivity. Qed.

Lemma Tick_10ms_fault_total (code : Z) (io : port_A) (m : machine) :
  fault_total code (exec (Tick_10ms io) m) =
    (fault_total code m +
     (if sample_pending m && (FAULT_OVERRUN =? code)%Z then 1 else 0))%nat.
Proof.
  rewrite (faults_reported_total _ _ _ (Tick_10ms_extends io m)).
  unfold faults_reported. rewrite Tick_10ms_emitted.
  destruct (sample_pending m); cbn [filter is_fault andb];
    [ destruct (FAULT_OVERRUN =? code) | ]; reflexivity.
Qed.

(** ** [compensateAirData] and the loop body *)

Section LoopProofs.

Variable INT_MAX : Z.

Lemma debounce_effect (m : machine) :
  let c' := int_incr INT_MAX (FilterErrorCount m) in
  exec (debounce INT_MAX) m =
    mkMachine (RawAirData m) (AirDataProcessed m) (FilteredAirData m)
              (CompensatedAirData m) (err m)
              (if err m =? 0 then 0 else c')
              (T1_masked m)
              (trace m ++
                 (if negb (err m =? 0) && (c' >? 5)
                  then [Ev_Fault FAULT_AIRFILTER] else [])).
Proof.
  destruct m as [raw p fil cmp e c msk tr]. cbv zeta.
  unfold debounce. unfold_monad.
  destruct (e =? 0); cbn [negb andb]; unfold_monad.
  - rewrite app_nil_r. reflexivity.
  - destruct (int_incr INT_MAX c >? 5); unfold_monad;
      rewrite ?app_nil_r; reflexivity.
Qed.

Lemma set_err_effect (r : Z) (m : machine) :
  RawAirData (exec (set_err r) m) = RawAirData m /\
  AirDataProcessed (exec (set_err r) m) = AirDataProcessed m /\
  FilterErrorCount (exec (set_err r) m) = FilterErrorCount m /\
  trace (exec (set_err r) m) = trace m /\
  err (exec (set_err r) m) = r.
Proof. destruct m. unfold_monad. repeat split. Qed.

(** Lines 210-215, after [compensateAirData] has returned [r]. *)
Lemma escalate_effect (r : Z) (m : machine) :
  r = 0 \/ r = FAULT_COMPENSATE_DIV \/ r = FAULT_COMPENSATE_RANGE ->
  let m' := exec (set_err r;; e3 <- get_err;;
                  (if negb (e3 =? 0) then Fault e3 else ret tt)) m in
  FilterErrorCount m' = FilterErrorCount m /\
  AirDataProcessed m' = AirDataProcessed m /\
  RawAirData m' = RawAirData m /\
  exists l, trace m' = trace m ++ l /\
            length (filter (is_fault FAULT_OVERRUN) l) = O /\
            length (filter (is_fault FAULT_AIRFILTER) l) = O.
Proof.
  intros Hr. destruct m as [raw p fil cmp e c msk tr]. cbv zeta.
  destruct Hr as [ -> | [ -> | -> ] ]; unfold_monad; cbn [Z.eqb negb];
    unfold_monad; repeat split.
  - exists []. rewrite app_nil_r. repeat split.
  - exists [Ev_Fault FAULT_COMPENSATE_DIV]. repeat split.
  - exists [Ev_Fault FAULT_COMPENSATE_RANGE]. repeat split.
Qed.

(** The two calls of [main], reduced to what the loop needs. *)
Lemma filter_call_effect (m : machine) :
  let m' := exec (filterAirData Obj_RawAirData Obj_FilteredAirData) m in
  RawAirData m' = RawAirData m /\
  AirDataProcessed m' = 1 /\
  FilterErrorCount m' = FilterErrorCount m /\
  exists l, trace m' = trace m ++ l /\
            forall code, filter (is_fault code) l = [].
Proof.
  destruct m as [raw p fil cmp e c msk tr].
  destruct raw as [re rt rs], fil as [fe ft fs].
  cbv zeta; unfold filterAirData; unfold_monad.
  rewrite <- !app_assoc; cbn [app].
  match goal with |- context [negb ?b] => destruct b end;
    cbn [negb]; unfold_monad; repeat split;
    eexists; (split; [ reflexivity | reflexivity ]).
Qed.

Lemma compensate_call_effect (m : machine) :
  let m' := exec (compensateAirData Obj_FilteredAirData
                    Obj_CompensatedAirData) m in
  let r := result (compensateAirData Obj_FilteredAirData
                     Obj_CompensatedAirData) m in
  (r = 0 \/ r = FAULT_COMPENSATE_DIV \/ r = FAULT_COMPENSATE_RANGE) /\
  RawAirData m' = RawAirData m /\
  AirDataProcessed m' = AirDataProcessed m /\
  FilterErrorCount m' = FilterErrorCount m /\
  exists l, trace m' = trace m ++ l /\
            forall code, filter (is_fault code) l = [].
Proof.
  destruct m as [raw p fil cmp e c msk tr].
  destruct fil as [fe ft fs], cmp as [ce ct cs].
  cbv zeta; unfold compensateAirData; unfold_monad.
  destruct (ft =? 0); unfold_monad;
    try match goal with |- context [?q >? 65535] => destruct (q >? 65535) end;
    unfold_monad; rewrite <- ?app_assoc; cbn [app];
    (repeat split;
     [ unfold FAULT_COMPENSATE_DIV, FAULT_COMPENSATE_RANGE; tauto
     | first [ exists []; split; [ symmetry; apply app_nil_r | reflexivity ]
             | eexists; split; [ reflexivity | reflexivity ] ] ]).
Qed.

(** One pass of the loop: the counter, the flag, the raw sample, and the
    calls of [Fault] that the pass adds. *)
Lemma main_loop_body_effect (m : machine) :
  let r := result (filterAirData Obj_RawAirData Obj_FilteredAirData) m in
  let c' := int_incr INT_MAX (FilterErrorCount m) in
  let m' := exec (main_loop_body INT_MAX) m in
  FilterErrorCount m' = (if r =? 0 then 0 else c') /\
  AirDataProcessed m' = 1 /\
  RawAirData m' = RawAirData m /\
  exists l, trace m' = trace m ++ l /\
            length (filter (is_fault FAULT_OVERRUN) l) = O /\
            length (filter (is_fault FAULT_AIRFILTER) l) =
              (if negb (r =? 0) && (c' >? 5) then 1%nat else O).
Proof.
  cbv zeta. unfold main_loop_body.
  rewrite exec_bind.
  pose proof (filter_call_effect m) as H1. cbv zeta in H1.
  remember (result (filterAirData Obj_RawAirData Obj_FilteredAirData) m)
    as r eqn:Er. clear Er.
  remember (exec (filterAirData Obj_RawAirData Obj_FilteredAirData) m)
    as m1 eqn:E1. clear E1.
  destruct H1 as (Hk1 & Hp1 & Hc1 & l1 & Ht1 & Hf1).
  rewrite exec_bind.
  destruct (set_err_effect r m1) as (Hr2 & Hp2 & Hc2 & Ht2 & He2).
  remember (exec (set_err r) m1) as m2 eqn:E2. clear E2.
  rewrite exec_bind.
  pose proof (debounce_effect m2) as H3. cbv zeta in H3.
  rewrite He2, Hc2, Hp2, Hr2, Ht2, Hc1, Hp1, Hk1, Ht1 in H3.
  remember (exec (debounce INT_MAX) m2) as m3 eqn:E3. clear E3.
  rewrite exec_bind.
  pose proof (compensate_call_effect m3) as H4. cbv zeta in H4.
  remember (result (compensateAirData Obj_FilteredAirData
                      Obj_CompensatedAirData) m3) as r4 eqn:Er4. clear Er4.
  remember (exec (compensateAirData Obj_FilteredAirData
                    Obj_CompensatedAirData) m3) as m4 eqn:E4. clear E4.
  destruct H4 as (Hr4 & Hk4 & Hp4 & Hc4 & l4 & Ht4 & Hf4).
  destruct (escalate_effect r4 m4 Hr4) as (Hc5 & Hp5 & Hr5 & l5 & Ht5 & Ho5 & Ha5).
  cbv zeta in Hc5, Hp5, Hr5, Ht5.
  rewrite Hc5, Hp5, Hr5, Ht5, Hc4, Hp4, Hk4, Ht4.
  subst m3. cbn [FilterErrorCount AirDataProcessed RawAirData trace].
  repeat split.
  eexists. split.
  - rewrite <- !app_assoc. reflexivity.
  - rewrite !filter_app, !length_app, !Hf1, !Hf4, Ho5, Ha5.
    destruct (negb (r =? 0) && (int_incr INT_MAX (FilterErrorCount m) >? 5));
      split; reflexivity.
Qed.

(** ** Schedules *)

Lemma run_IRQ (io : port_A) (rest : list sched_event) (m : machine) :
  exec (run INT_MAX (IRQ_T1 io :: rest)) m =
    exec (run INT_MAX rest) (exec (Tick_10ms io) m).
Proof. cbn [run]. apply exec_bind. Qed.

Lemma run_LoopPass (rest : list sched_event) (m : machine) :
  exec (run INT_MAX (LoopPass :: rest)) m =
    exec (run INT_MAX rest) (exec (main_loop_body INT_MAX) m).
Proof. cbn [run]. apply exec_bind. Qed.

Lemma run_nil (m : machine) : exec (run INT_MAX []) m = m.
Proof. reflexivity. Qed.

Lemma run_app (a b : list sched_event) (m : machine) :
  exec (run INT_MAX (a ++ b)) m = exec (run INT_MAX b) (exec (run INT_MAX a) m).
Proof.
  revert m. induction a as [ | [ io | ] a IH ]; intros m.
  - rewrite run_nil. reflexivity.
  - rewrite <- app_comm_cons, !run_IRQ. apply IH.
  - rewrite <- app_comm_cons, !run_LoopPass. apply IH.
Qed.

Lemma filter_results_app (a b : list sched_event) (m : machine) :
  filter_results INT_MAX (a ++ b) m =
    filter_results INT_MAX a m ++ filter_results INT_MAX b (exec (run INT_MAX a) m).
Proof.
  revert m. induction a as [ | [ io | ] a IH ]; intros m.
  - rewrite run_nil. reflexivity.
  - rewrite <- app_comm_cons, run_IRQ. cbn [filter_results]. apply IH.
  - rewrite <- app_comm_cons, run_LoopPass. cbn [filter_results app].
    f_equal. apply IH.
Qed.

Lemma run_extends (sch : list sched_event) (m : machine) :
  exists l, trace (exec (run INT_MAX sch) m) = trace m ++ l.
Proof.
  revert m. induction sch as [ | [ io | ] sch IH ]; intros m.
  - exists []. rewrite run_nil, app_nil_r. reflexivity.
  - rewrite run_IRQ.
    destruct (IH (exec (Tick_10ms io) m)) as (l2 & H2).
    destruct (Tick_10ms_extends io m) as (l1 & H1).
    exists (l1 ++ l2). rewrite H2, H1, app_assoc. reflexivity.
  - rewrite run_LoopPass.
    destruct (IH (exec (main_loop_body INT_MAX) m)) as (l2 & H2).
    destruct (main_loop_body_effect m) as (_ & _ & _ & l1 & H1 & _).
    exists (l1 ++ l2). rewrite H2, H1, app_assoc. reflexivity.
Qed.

(** The overruns of a schedule are the interrupts that follow an interrupt. *)
Lemma run_overruns (sch : list sched_event) (m : machine) :
  fault_total FAULT_OVERRUN (exec (run INT_MAX sch) m) =
    (fault_total FAULT_OVERRUN m + overruns_expected (sample_pending m) sch)%nat.
Proof.
  revert m. induction sch as [ | [ io | ] sch IH ]; intros m.
  - rewrite run_nil. cbn [overruns_expected]. lia.
  - rewrite run_IRQ, IH, Tick_10ms_pending, Tick_10ms_fault_total.
    cbn [overruns_expected]. rewrite Z.eqb_refl, andb_true_r. lia.
  - rewrite run_LoopPass, IH.
    destruct (main_loop_body_effect m) as (_ & Hp & _ & l & Ht & Ho & _).
    cbv zeta in Hp, Ht.
    rewrite (fault_total_app _ _ _ _ Ht), Ho.
    unfold sample_pending at 1. rewrite Hp.
    cbn [overruns_expected Z.eqb Pos.eqb negb]. lia.
Qed.

(** The loop implements the debounce policy, as long as the counter stays
    below [INT_MAX]. *)
Lemma run_debounce (sch : list sched_event) (m : machine) :
  0 <= FilterErrorCount m ->
  FilterErrorCount m + Z.of_nat (length (filter_results INT_MAX sch m))
    <= INT_MAX ->
  fault_total FAULT_AIRFILTER (exec (run INT_MAX sch) m) =
    (fault_total FAULT_AIRFILTER m +
     escalations (FilterErrorCount m) (filter_results INT_MAX sch m))%nat /\
  FilterErrorCount (exec (run INT_MAX sch) m) =
    streak_after (FilterErrorCount m) (filter_results INT_MAX sch m).
Proof.
  revert m. induction sch as [ | [ io | ] sch IH ]; intros m H0 Hmax.
  - rewrite run_nil. cbn [filter_results escalations streak_after].
    split; [ lia | reflexivity ].
  - rewrite run_IRQ. cbn [filter_results] in *.
    assert (Hc : FilterErrorCount (exec (Tick_10ms io) m) = FilterErrorCount m)
      by (rewrite Tick_10ms_effect; reflexivity).
    destruct (IH (exec (Tick_10ms io) m)) as (Hf & Hs);
      [ rewrite Hc; exact H0 | rewrite Hc; exact Hmax | ].
    rewrite Hf, Hs, Hc, Tick_10ms_fault_total.
    replace (FAULT_OVERRUN =? FAULT_AIRFILTER) with false by reflexivity.
    rewrite andb_false_r. split; [ lia | reflexivity ].
  - rewrite run_LoopPass. cbn [filter_results] in *.
    destruct (main_loop_body_effect m) as (Hc & _ & _ & l & Ht & _ & Ha).
    cbv zeta in Hc, Ht, Ha.
    remember (result (filterAirData Obj_RawAirData Obj_FilteredAirData) m)
      as r eqn:Er. clear Er.
    remember (exec (main_loop_body INT_MAX) m) as m1 eqn:E1. clear E1.
    cbn [length] in Hmax.
    assert (Hinc : int_incr INT_MAX (FilterErrorCount m) = FilterErrorCount m + 1).
    { unfold int_incr.
      destruct (Z.ltb_spec (FilterErrorCount m) INT_MAX); [ reflexivity | lia ]. }
    rewrite Hinc in Hc, Ha.
    cbn [escalations streak_after].
    destruct (IH m1) as (Hf & Hs).
    + rewrite Hc. destruct (r =? 0); lia.
    + rewrite Hc. destruct (r =? 0); lia.
    + rewrite Hf, Hs, Hc, (fault_total_app _ _ _ _ Ht), Ha.
      destruct (r =? 0); cbn [negb andb]; split; try reflexivity; lia.
Qed.

(** After a pass in which the filter succeeded the counter is 0, whatever
    happened before and however many interrupts follow. *)
Lemma run_success_resets (sch : list sched_event) (m : machine) :
  forall rs, filter_results INT_MAX sch m = rs ++ [0] ->
             FilterErrorCount (exec (run INT_MAX sch) m) = 0.
Proof.
  induction sch as [ | ev sch IH ] using rev_ind; intros rs Hrs.
  - cbn [filter_results] in Hrs. destruct rs; discriminate Hrs.
  - rewrite filter_results_app in Hrs. rewrite run_app.
    destruct ev as [ io | ].
    + cbn [filter_results] in Hrs. rewrite app_nil_r in Hrs.
      rewrite run_IRQ, run_nil, Tick_10ms_effect. cbn [FilterErrorCount].
      apply (IH rs Hrs).
    + cbn [filter_results] in Hrs. apply app_inj_tail in Hrs.
      destruct Hrs as (_ & Hr).
      rewrite run_LoopPass, run_nil.
      destruct (main_loop_body_effect (exec (run INT_MAX sch) m)) as (Hc & _).
      cbv zeta in Hc. rewrite Hc, Hr. reflexivity.
Qed.

Lemma run_faults_reported (code : Z) (sch : list sched_event) (m : machine) (k : nat) :
  fault_total code (exec (run INT_MAX sch) m) = (fault_total code m + k)%nat ->
  faults_reported code (run INT_MAX sch) m = k.
Proof.
  rewrite (faults_reported_total _ _ _ (run_extends sch m)). lia.
Qed.

End LoopProofs.

(** ** The timer interrupt *)

(** [C6]: after any schedule, an invocation of [Tick_10ms] that finds the
    previous sample still waiting calls [Fault(FAULT_OVERRUN)] once, first
    of all, and then writes the three fields of [RawAirData] with what the
    port delivers (converted to the field types; unchanged when in range).
    The sample is still waiting afterwards, the function returns, and the
    next invocation writes its own values again.  Over a whole schedule the
    overruns reported are exactly the interrupts that found a sample
    waiting. *)
Theorem overrun_reported_once :
  forall (INT_MAX : Z) (sch : list sched_event) (m0 : machine) (io : port_A),
    let m := exec (run INT_MAX sch) m0 in
    let m' := exec (Tick_10ms io) m in
    sample_pending m = true ->
    emitted (Tick_10ms io) m =
      [Ev_Fault FAULT_OVERRUN;
       Ev_Store Obj_RawAirData F_errorWord (to_uchar (ReadPort8 io));
       Ev_Store Obj_RawAirData F_tempC (to_ushort (ReadPort16 io));
       Ev_Store Obj_RawAirData F_speed (to_ulong (ReadPort32 io))] /\
    faults_reported FAULT_OVERRUN (Tick_10ms io) m = 1%nat /\
    faults_reported FAULT_OVERRUN (run INT_MAX (sch ++ [IRQ_T1 io])) m0 =
      S (faults_reported FAULT_OVERRUN (run INT_MAX sch) m0) /\
    faults_reported FAULT_OVERRUN (run INT_MAX sch) m0 =
      overruns_expected (sample_pending m0) sch /\
    RawAirData m' = sample_of_port io /\
    (is_uchar (ReadPort8 io) -> is_ushort (ReadPort16 io) ->
     is_ulong (ReadPort32 io) ->
     RawAirData m' = mkAirData (ReadPort8 io) (ReadPort16 io) (ReadPort32 io)) /\
    Tick_10ms io m = (tt, m') /\
    sample_pending m' = true /\
    (forall io2, RawAirData (exec (Tick_10ms io2) m') = sample_of_port io2).
Proof.
  intros INT_MAX sch m0 io. cbv zeta.
  remember (exec (run INT_MAX sch) m0) as m eqn:Em.
  intros Hpend.
  assert (Hraw : forall i s, RawAirData (exec (Tick_10ms i) s) = sample_of_port i)
    by (intros i s; rewrite Tick_10ms_effect; reflexivity).
  assert (Hseq : forall s,
             faults_reported FAULT_OVERRUN (run INT_MAX s) m0 =
               overruns_expected (sample_pending m0) s)
    by (intros s; apply run_faults_reported, run_overruns).
  repeat split.
  - rewrite Tick_10ms_emitted, Hpend. reflexivity.
  - unfold faults_reported. rewrite Tick_10ms_emitted, Hpend. reflexivity.
  - apply run_faults_reported.
    rewrite run_app, run_IRQ, run_nil, <- Em, Tick_10ms_fault_total, Hpend.
    rewrite Em, run_overruns, Hseq. cbn. lia.
  - apply Hseq.
  - apply Hraw.
  - intros H8 H16 H32. rewrite Hraw. unfold sample_of_port.
    rewrite to_uchar_id, to_ushort_id, to_ulong_id by assumption. reflexivity.
  - unfold exec. destruct (Tick_10ms io m) as [ [] s ]. reflexivity.
  - apply Tick_10ms_pending.
  - intros io2. apply Hraw.
Qed.

(** [C7], as amended: an invocation of [Tick_10ms] that finds the previous
    sample consumed sets the flag to "sample waiting" and reports nothing;
    the flag is written first, before the three fields of [RawAirData],
    and all four writes are done when the function returns. *)
Theorem tick_sets_available_first :
  forall (io : port_A) (m : machine),
    sample_pending m = false ->
    let m' := exec (Tick_10ms io) m in
    AirDataProcessed m' = 0 /\
    sample_pending m' = true /\
    RawAirData m' = sample_of_port io /\
    emitted (Tick_10ms io) m =
      [Ev_Processed 0;
       Ev_Store Obj_RawAirData F_errorWord (to_uchar (ReadPort8 io));
       Ev_Store Obj_RawAirData F_tempC (to_ushort (ReadPort16 io));
       Ev_Store Obj_RawAirData F_speed (to_ulong (ReadPort32 io))] /\
    available_set_before_fields (emitted (Tick_10ms io) m) /\
    ~ available_set_after_fields (emitted (Tick_10ms io) m).
Proof.
  intros io m Hpend. cbv zeta.
  rewrite Tick_10ms_emitted, Tick_10ms_pending, Tick_10ms_effect, Hpend.
  cbn [AirDataProcessed RawAirData].
  repeat split.
  - intros f. destruct f; reflexivity.
  - intros H. specialize (H F_errorWord). discriminate H.
Qed.

(** [C7], as stated, fails at program start: the previous sample is
    consumed, and in the invocation with port values 0, 20, 300 no field of
    [RawAirData] is written before the flag is set. *)
Lemma tick_available_not_set_last :
  sample_pending initial_machine = false /\
  ~ available_set_after_fields
      (emitted (Tick_10ms (mkPort 0 20 300)) initial_machine).
Proof.
  split; [ reflexivity | ].
  intros H. specialize (H F_errorWord). vm_compute in H. discriminate H.
Qed.

(** ** The debounce of filter errors *)

(** [C1]: take any schedule of loop passes and timer interrupts that
    starts with the counter at 0.  If [filterAirData] fails in five passes
    and then succeeds, [Fault(FAULT_AIRFILTER)] is not called.  If it fails
    in six passes, [Fault(FAULT_AIRFILTER)] is called once, and that call
    is made in the sixth pass: none up to the fifth, one with the sixth.
    In every pass a filter error adds one to the counter (below [INT_MAX])
    and a success sets it to 0; so the counter is 0 at program start and
    after any schedule whose last pass succeeded. *)
Theorem debounce_escalation :
  forall (INT_MAX : Z) (sch : list sched_event) (m : machine),
    32767 <= INT_MAX ->
    FilterErrorCount m = 0 ->
    let E := FAULT_AIRFILTER in
    (filter_results INT_MAX sch m = [E; E; E; E; E; 0] ->
     faults_reported E (run INT_MAX sch) m = O) /\
    (filter_results INT_MAX sch m = [E; E; E; E; E; E] ->
     faults_reported E (run INT_MAX sch) m = 1%nat /\
     forall pre post,
       sch = pre ++ LoopPass :: post ->
       filter_results INT_MAX pre m = [E; E; E; E; E] ->
       faults_reported E (run INT_MAX pre) m = O /\
       faults_reported E (run INT_MAX (pre ++ [LoopPass])) m = 1%nat) /\
    (forall s : machine,
       let r := result (filterAirData Obj_RawAirData Obj_FilteredAirData) s in
       let s' := exec (main_loop_body INT_MAX) s in
       (r <> 0 -> FilterErrorCount s < INT_MAX ->
        FilterErrorCount s' = FilterErrorCount s + 1) /\
       (r = 0 -> FilterErrorCount s' = 0)) /\
    (forall (m0 : machine) (before : list sched_event) (rs : list Z),
       filter_results INT_MAX before m0 = rs ++ [0] ->
       FilterErrorCount (exec (run INT_MAX before) m0) = 0).
Proof.
  intros INT_MAX sch m Hint H0. cbv zeta.
  assert (Hrun : forall s rs,
             filter_results INT_MAX s m = rs ->
             (length rs <= 6)%nat ->
             faults_reported FAULT_AIRFILTER (run INT_MAX s) m = escalations 0 rs).
  { intros s rs Hrs Hlen. apply run_faults_reported.
    destruct (run_debounce INT_MAX s m) as (Hf & _).
    - rewrite H0. lia.
    - rewrite H0, Hrs. lia.
    - rewrite Hf, H0, Hrs. reflexivity. }
  split; [ | split; [ | split ] ].
  4: { intros m0 before rs. apply run_success_resets. }
  - intros Hrs. rewrite (Hrun _ _ Hrs); [ reflexivity | cbn; lia ].
  - intros Hrs. split.
    + rewrite (Hrun _ _ Hrs); [ reflexivity | cbn; lia ].
    + intros pre post Hsch Hpre. split.
      * rewrite (Hrun _ _ Hpre); [ reflexivity | cbn; lia ].
      * rewrite Hsch, filter_results_app, Hpre in Hrs.
        cbn [filter_results app] in Hrs.
        injection Hrs as Hr6 _.
        rewrite (Hrun _ [FAULT_AIRFILTER; FAULT_AIRFILTER; FAULT_AIRFILTER;
                         FAULT_AIRFILTER; FAULT_AIRFILTER; FAULT_AIRFILTER]);
          [ reflexivity | | cbn; lia ].
        rewrite filter_results_app, Hpre. cbn [filter_results app].
        rewrite Hr6. reflexivity.
  - intros s.
    destruct (main_loop_body_effect INT_MAX s) as (Hc & _).
    cbv zeta in Hc. rewrite Hc. split.
    + intros Hr Hlt. apply Z.eqb_neq in Hr. rewrite Hr. unfold int_incr.
      destruct (Z.ltb_spec (FilterErrorCount s) INT_MAX); [ reflexivity | lia ].
    + intros Hr. rewrite Hr. reflexivity.
Qed.

(** * Instances *)

(** The program's first call of [compensateAirData]: the filtered sample
    is still all zero. *)
Lemma compensate_divide_by_zero_witness :
  tempC (obj_val Obj_FilteredAirData initial_machine) = 0 /\
  compensateAirData Obj_FilteredAirData Obj_CompensatedAirData initial_machine
    = (FAULT_COMPENSATE_DIV, initial_machine) /\
  obj_val Obj_CompensatedAirData
    (exec (compensateAirData Obj_FilteredAirData Obj_CompensatedAirData)
       initial_machine) = mkAirData 1 1000 1000000.
Proof.
  split; [ reflexivity | ].
  destruct (compensate_divide_by_zero Obj_FilteredAirData Obj_CompensatedAirData
              initial_machine eq_refl) as (H1 & H2 & _).
  split; [ exact H1 | exact H2 ].
Defined.

(** [speed = 700000000], [tempC = 1]. *)
Lemma compensate_range_overflow_witness :
  let m := with_filtered (mkAirData 0 1 700000000) in
  wf_AirData (obj_val Obj_FilteredAirData m) /\
  compensateAirData Obj_FilteredAirData Obj_CompensatedAirData m
    = (FAULT_COMPENSATE_RANGE, m) /\
  obj_val Obj_CompensatedAirData
    (exec (compensateAirData Obj_FilteredAirData Obj_CompensatedAirData) m)
    = mkAirData 1 1000 1000000.
Proof.
  cbv zeta.
  assert (Hwf : wf_AirData
                  (obj_val Obj_FilteredAirData
                     (with_filtered (mkAirData 0 1 700000000))))
    by (unfold wf_AirData, is_uchar, is_ushort, is_ulong; simpl; lia).
  split; [ exact Hwf | ].
  apply (compensate_range_overflow Obj_FilteredAirData Obj_CompensatedAirData
           (with_filtered (mkAirData 0 1 700000000)) Hwf).
  - simpl. lia.
  - vm_compute. reflexivity.
Defined.

(** [speed = 100000], [tempC = 1003]: the quotient is 99. *)
Lemma compensate_success_witness :
  let m := with_filtered (mkAirData 0 1003 100000) in
  wf_AirData (obj_val Obj_FilteredAirData m) /\
  result (compensateAirData Obj_FilteredAirData Obj_CompensatedAirData) m
    = FAULT_NONE /\
  obj_val Obj_CompensatedAirData
    (exec (compensateAirData Obj_FilteredAirData Obj_CompensatedAirData) m)
    = mkAirData 0 99 100000.
Proof.
  cbv zeta.
  assert (Hwf : wf_AirData
                  (obj_val Obj_FilteredAirData
                     (with_filtered (mkAirData 0 1003 100000))))
    by (unfold wf_AirData, is_uchar, is_ushort, is_ulong; simpl; lia).
  split; [ exact Hwf | ].
  apply (compensate_success Obj_FilteredAirData Obj_CompensatedAirData
           (with_filtered (mkAirData 0 1003 100000)) Hwf).
  - simpl. lia.
  - vm_compute. discriminate.
Defined.

(** The first call of [filterAirData]: raw [tempC = 1000] gives 1003, and
    the raw [errorWord = 1] gives [FAULT_AIRFILTER]. *)
Lemma filter_output_witness :
  wf_AirData (obj_val Obj_RawAirData initial_machine) /\
  obj_val Obj_FilteredAirData
    (exec (filterAirData Obj_RawAirData Obj_FilteredAirData) initial_machine)
    = mkAirData 1 1003 100000 /\
  result (filterAirData Obj_RawAirData Obj_FilteredAirData) initial_machine
    = FAULT_AIRFILTER.
Proof.
  assert (Hwf : wf_AirData (obj_val Obj_RawAirData initial_machine))
    by (unfold wf_AirData, is_uchar, is_ushort, is_ulong; simpl; lia).
  split; [ exact Hwf | ].
  destruct (filter_output Obj_RawAirData Obj_FilteredAirData initial_machine Hwf)
    as (Ho & _ & Hr & _).
  split.
  - exact Ho.
  - apply Hr. simpl. lia.
Defined.

(** Two interrupts in a row at program start: the second one overruns. *)
Lemma overrun_reported_once_witness :
  let sch := [IRQ_T1 (mkPort 0 1000 100000)] in
  let io := mkPort 0 1001 100001 in
  let m := exec (run 32767 sch) initial_machine in
  sample_pending m = true /\
  faults_reported FAULT_OVERRUN (Tick_10ms io) m = 1%nat /\
  RawAirData (exec (Tick_10ms io) m) = mkAirData 0 1001 100001.
Proof.
  cbv zeta.
  assert (Hp : sample_pending
                 (exec (run 32767 [IRQ_T1 (mkPort 0 1000 100000)])
                    initial_machine) = true)
    by reflexivity.
  split; [ exact Hp | ].
  destruct (overrun_reported_once 32767 [IRQ_T1 (mkPort 0 1000 100000)]
              initial_machine (mkPort 0 1001 100001) Hp)
    as (_ & H1 & _ & _ & H2 & _).
  split; [ exact H1 | exact H2 ].
Defined.

(** The first interrupt at program start. *)
Lemma tick_sets_available_first_witness :
  sample_pending initial_machine = false /\
  AirDataProcessed (exec (Tick_10ms (mkPort 0 20 300)) initial_machine) = 0 /\
  emitted (Tick_10ms (mkPort 0 20 300)) initial_machine =
    [Ev_Processed 0;
     Ev_Store Obj_RawAirData F_errorWord 0;
     Ev_Store Obj_RawAirData F_tempC 20;
     Ev_Store Obj_RawAirData F_speed 300].
Proof.
  split; [ reflexivity | ].
  destruct (tick_sets_available_first (mkPort 0 20 300) initial_machine eq_refl)
    as (H1 & _ & _ & H2 & _).
  split; [ exact H1 | exact H2 ].
Defined.

(** The call of [main], twice. *)
Lemma filter_twice_same_witness :
  let f := filterAirData Obj_RawAirData Obj_FilteredAirData in
  Obj_RawAirData <> Obj_FilteredAirData /\
  obj_val Obj_FilteredAirData (exec f (exec f initial_machine))
    = obj_val Obj_FilteredAirData (exec f initial_machine) /\
  obj_val Obj_RawAirData (exec f (exec f initial_machine))
    = mkAirData 1 1000 100000.
Proof.
  cbv zeta.
  assert (Hne : Obj_RawAirData <> Obj_FilteredAirData) by discriminate.
  split; [ exact Hne | ].
  destruct (filter_twice_same Obj_RawAirData Obj_FilteredAirData
              initial_machine Hne) as (H1 & _ & _ & H2).
  split; [ exact H1 | exact H2 ].
Defined.

(** Raw [tempC = 65535]: the product is 65747, the field receives 211, and
    the call returns 0. *)
Lemma filter_scaling_unguarded_witness :
  let m := with_raw (mkAirData 0 65535 5) in
  wf_AirData (obj_val Obj_RawAirData m) /\
  65535 * 100000 < tempC (obj_val Obj_RawAirData m) * 100325 /\
  scaled_tempC 65535 = 65747 /\
  tempC (obj_val Obj_FilteredAirData
           (exec (filterAirData Obj_RawAirData Obj_FilteredAirData) m)) = 211 /\
  result (filterAirData Obj_RawAirData Obj_FilteredAirData) m = FAULT_NONE.
Proof.
  cbv zeta.
  assert (Hwf : wf_AirData (obj_val Obj_RawAirData (with_raw (mkAirData 0 65535 5))))
    by (unfold wf_AirData, is_uchar, is_ushort, is_ulong; simpl; lia).
  assert (Hbig : 65535 * 100000 <
                 tempC (obj_val Obj_RawAirData (with_raw (mkAirData 0 65535 5)))
                 * 100325)
    by (simpl; lia).
  split; [ exact Hwf | ]. split; [ exact Hbig | ].
  destruct (filter_scaling_unguarded Obj_RawAirData Obj_FilteredAirData
              (with_raw (mkAirData 0 65535 5)) Hwf Hbig)
    as (H1 & _ & _ & H2 & H3 & _).
  split; [ exact H1 | ].
  split; [ | exact H3 ].
  apply H2. simpl. lia.
Defined.

(** From program start: five passes on the faulty initial sample, then a
    good sample and a sixth pass; and six passes on the faulty sample. *)
Lemma debounce_escalation_witness :
  let five_then_ok :=
    [LoopPass; LoopPass; LoopPass; LoopPass; LoopPass;
     IRQ_T1 (mkPort 0 1000 100000); LoopPass] in
  let six := [LoopPass; LoopPass; LoopPass; LoopPass; LoopPass; LoopPass] in
  (32767 <= 32767 /\ FilterErrorCount initial_machine = 0) /\
  filter_results 32767 five_then_ok initial_machine =
    [FAULT_AIRFILTER; FAULT_AIRFILTER; FAULT_AIRFILTER; FAULT_AIRFILTER;
     FAULT_AIRFILTER; 0] /\
  faults_reported FAULT_AIRFILTER (run 32767 five_then_ok) initial_machine = O /\
  filter_results 32767 six initial_machine =
    [FAULT_AIRFILTER; FAULT_AIRFILTER; FAULT_AIRFILTER; FAULT_AIRFILTER;
     FAULT_AIRFILTER; FAULT_AIRFILTER] /\
  faults_reported FAULT_AIRFILTER (run 32767 six) initial_machine = 1%nat.
Proof.
  cbv zeta.
  assert (H5 : filter_results 32767
                 [LoopPass; LoopPass; LoopPass; LoopPass; LoopPass;
                  IRQ_T1 (mkPort 0 1000 100000); LoopPass] initial_machine =
               [FAULT_AIRFILTER; FAULT_AIRFILTER; FAULT_AIRFILTER;
                FAULT_AIRFILTER; FAULT_AIRFILTER; 0])
    by (vm_compute; reflexivity).
  assert (H6 : filter_results 32767
                 [LoopPass; LoopPass; LoopPass; LoopPass; LoopPass; LoopPass]
                 initial_machine =
               [FAULT_AIRFILTER; FAULT_AIRFILTER; FAULT_AIRFILTER;
                FAULT_AIRFILTER; FAULT_AIRFILTER; FAULT_AIRFILTER])
    by (vm_compute; reflexivity).
  assert (Hint : 32767 <= 32767) by lia.
  split; [ split; [ exact Hint | reflexivity ] | ].
  split; [ exact H5 | ].
  split.
  - destruct (debounce_escalation 32767
                [LoopPass; LoopPass; LoopPass; LoopPass; LoopPass;
                 IRQ_T1 (mkPort 0 1000 100000); LoopPass]
                initial_machine Hint eq_refl) as (Ha & _).
    cbv zeta in Ha. exact (Ha H5).
  - split; [ exact H6 | ].
    destruct (debounce_escalation 32767
                [LoopPass; LoopPass; LoopPass; LoopPass; LoopPass; LoopPass]
                initial_machine Hint eq_refl) as (_ & Hb & _).
    cbv zeta in Hb. exact (proj1 (Hb H6)).
Defined.

(** * Further properties of the code *)

(** ** One pass of the loop, in full *)

(** The machine after one pass, in terms of the machine before it. *)
Lemma main_loop_body_exact (INT_MAX : Z) (m : machine) :
  let raw := RawAirData m in
  let fe := to_uchar (errorWord raw) in
  let ft := to_ushort (scaled_tempC (tempC raw)) in
  let fs := to_ulong (speed raw) in
  let c' := int_incr INT_MAX (FilterErrorCount m) in
  let q := to_ulong (fs / ft) in
  exec (main_loop_body INT_MAX) m =
    mkMachine raw 1 (mkAirData fe ft fs)
      (if ft =? 0 then CompensatedAirData m
       else if q >? 65535 then CompensatedAirData m
       else mkAirData (to_uchar fe) (to_ushort q) (to_ulong fs))
      (if ft =? 0 then FAULT_COMPENSATE_DIV
       else if q >? 65535 then FAULT_COMPENSATE_RANGE else 0)
      (if fe =? 0 then 0 else c')
      false
      (trace m ++
         [Ev_DI_T1;
          Ev_Store Obj_FilteredAirData F_errorWord fe;
          Ev_Store Obj_FilteredAirData F_tempC ft;
          Ev_Store Obj_FilteredAirData F_speed fs;
          Ev_Processed 1;
          Ev_EI_T1] ++
         (if negb (fe =? 0) && (c' >? 5) then [Ev_Fault FAULT_AIRFILTER] else []) ++
         (if ft =? 0 then [Ev_Fault FAULT_COMPENSATE_DIV]
          else if q >? 65535 then [Ev_Fault FAULT_COMPENSATE_RANGE]
          else [Ev_Store Obj_CompensatedAirData F_tempC (to_ushort q);
                Ev_Store Obj_CompensatedAirData F_speed (to_ulong fs);
                Ev_Store Obj_CompensatedAirData F_errorWord (to_uchar fe)])).
Proof.
  destruct m as [raw p fil cmp e c msk tr].
  destruct raw as [re rt rs]. cbv zeta.
  unfold main_loop_body, debounce, filterAirData, compensateAirData.
  unfold_monad.
  destruct (to_uchar re =? 0); cbn [negb andb]; unfold_monad;
    cbn [Z.eqb negb andb FAULT_AIRFILTER]; unfold_monad;
    try destruct (int_incr INT_MAX c >? 5); unfold_monad;
    destruct (to_ushort (scaled_tempC rt) =? 0); unfold_monad;
    cbn [Z.eqb negb FAULT_COMPENSATE_DIV]; unfold_monad;
    try (destruct (to_ulong (to_ulong rs / to_ushort (scaled_tempC rt)) >? 65535);
         unfold_monad; cbn [Z.eqb negb FAULT_COMPENSATE_RANGE]; unfold_monad);
    rewrite <- ?app_assoc; cbn [app]; reflexivity.
Qed.

(** The code [compensateAirData] returns, from the input object alone. *)
Lemma compensate_result (inp out : object) (m : machine) :
  result (compensateAirData inp out) m =
    (if tempC (obj_val inp m) =? 0 then FAULT_COMPENSATE_DIV
     else if to_ulong (speed (obj_val inp m) / tempC (obj_val inp m)) >? 65535
          then FAULT_COMPENSATE_RANGE else 0).
Proof.
  destruct m as [raw p fil cmp e c msk tr].
  destruct raw as [re rt rs], fil as [fe ft fs], cmp as [ce ct cs].
  destruct inp, out; unfold compensateAirData; unfold_monad;
    match goal with |- context [?t =? 0] => destruct (t =? 0) end;
    unfold_monad; try reflexivity;
    match goal with |- context [?q >? 65535] => destruct (q >? 65535) end;
    unfold_monad; reflexivity.
Qed.

(** ** The critical section of [filterAirData] *)


(** ** [compensateAirData]: all or nothing *)

(** [X2]: for any input, well typed or not, [compensateAirData] returns 0,
    [FAULT_COMPENSATE_DIV] or [FAULT_COMPENSATE_RANGE].  When the code is
    not 0 the machine is exactly as before; when it is 0 exactly three
    stores were made, all into the output object, which then holds the
    quotient and the input's [speed] and [errorWord] (converted to the
    field types).  In no case is [Fault] called or any other object, the
    flag, [err] or the counter changed. *)
Theorem compensate_all_or_nothing :
  forall (inp out : object) (m : machine),
    let i := obj_val inp m in
    let q := to_ulong (speed i / tempC i) in
    let r := result (compensateAirData inp out) m in
    let m' := exec (compensateAirData inp out) m in
    (r = 0 \/ r = FAULT_COMPENSATE_DIV \/ r = FAULT_COMPENSATE_RANGE) /\
    (r <> 0 -> m' = m) /\
    (r = 0 ->
     obj_val out m' =
       mkAirData (to_uchar (errorWord i)) (to_ushort q) (to_ulong (speed i)) /\
     trace m' = trace m ++
       [Ev_Store out F_tempC (to_ushort q);
        Ev_Store out F_speed (to_ulong (speed i));
        Ev_Store out F_errorWord (to_uchar (errorWord i))]) /\
    (forall p, p <> out -> obj_val p m' = obj_val p m) /\
    AirDataProcessed m' = AirDataProcessed m /\
    err m' = err m /\
    FilterErrorCount m' = FilterErrorCount m /\
    T1_masked m' = T1_masked m.
Proof.
  intros inp out m.
  destruct m as [raw p fil cmp e c msk tr].
  destruct raw as [re rt rs], fil as [fe ft fs], cmp as [ce ct cs].
  destruct inp, out; cbv zeta; unfold compensateAirData; unfold_monad;
    match goal with |- context [?t =? 0] => destruct (t =? 0) end;
    unfold_monad;
    try match goal with |- context [?q >? 65535] => destruct (q >? 65535) end;
    unfold_monad; rewrite <- ?app_assoc; cbn [app];
    unfold FAULT_COMPENSATE_DIV, FAULT_COMPENSATE_RANGE;
    (repeat split; try tauto; try congruence; try discriminate;
     intros x Hx; destruct x; try reflexivity; congruence).
Qed.

(** ** The calls of [Fault] in one pass *)

(** [X3]: one pass of the loop calls [Fault] at most twice: with
    [FAULT_AIRFILTER] when the filter failed and the incremented counter
    is above 5, and then with the code of [compensateAirData] whenever
    that code is not 0, at once and in the same pass.  It never calls
    [Fault] with [FAULT_OVERRUN] or with 0, and it leaves the code of
    [compensateAirData] in [err]. *)
Theorem pass_fault_calls :
  forall (INT_MAX : Z) (m : machine),
    let r := result (filterAirData Obj_RawAirData Obj_FilteredAirData) m in
    let r2 := result (compensateAirData Obj_FilteredAirData
                        Obj_CompensatedAirData)
                (exec (filterAirData Obj_RawAirData Obj_FilteredAirData) m) in
    let c' := int_incr INT_MAX (FilterErrorCount m) in
    filter is_any_fault (emitted (main_loop_body INT_MAX) m) =
      (if negb (r =? 0) && (c' >? 5) then [Ev_Fault FAULT_AIRFILTER] else [])
      ++ (if r2 =? 0 then [] else [Ev_Fault r2]) /\
    err (exec (main_loop_body INT_MAX) m) = r2 /\
    (r2 = 0 \/ r2 = FAULT_COMPENSATE_DIV \/ r2 = FAULT_COMPENSATE_RANGE) /\
    faults_reported FAULT_OVERRUN (main_loop_body INT_MAX) m = O /\
    faults_reported FAULT_NONE (main_loop_body INT_MAX) m = O.
Proof.
  intros INT_MAX m. cbv zeta.
  destruct (filterAirData_effect Obj_RawAirData Obj_FilteredAirData m)
    as (Hr & Ho & _).
  cbv zeta in Hr, Ho.
  rewrite compensate_result, Ho, Hr. cbn [tempC speed obj_val].
  unfold faults_reported, emitted.
  rewrite main_loop_body_exact. cbn [trace err]. rewrite skipn_length_app.
  destruct (to_uchar (errorWord (RawAirData m)) =? 0);
    cbn [negb andb Z.eqb FAULT_AIRFILTER];
    try destruct (int_incr INT_MAX (FilterErrorCount m) >? 5);
    destruct (to_ushort (scaled_tempC (tempC (RawAirData m))) =? 0);
    try destruct (to_ulong
                    (to_ulong (speed (RawAirData m)) /
                     to_ushort (scaled_tempC (tempC (RawAirData m)))) >? 65535);
    cbn; repeat split; tauto.
Qed.

(** ** A faulty sample that is not replaced *)

Lemma escalations_repeat (n : nat) :
  forall c, 0 <= c ->
    escalations c (repeat FAULT_AIRFILTER n) = (n - Z.to_nat (5 - c))%nat.
Proof.
  induction n as [ | k IH ]; intros c Hc.
  - reflexivity.
  - cbn [repeat escalations]. change (FAULT_AIRFILTER =? 0) with false.
    cbv iota. rewrite IH by lia.
    destruct (Z.gtb_spec (c + 1) 5); lia.
Qed.

Lemma streak_after_repeat (n : nat) :
  forall c, streak_after c (repeat FAULT_AIRFILTER n) = c + Z.of_nat n.
Proof.
  induction n as [ | k IH ]; intros c.
  - cbn [repeat streak_after]. lia.
  - cbn [repeat streak_after]. change (FAULT_AIRFILTER =? 0) with false.
    cbv iota. rewrite IH. lia.
Qed.

Lemma passes_keep_raw (INT_MAX : Z) (n : nat) :
  forall m, RawAirData (exec (run INT_MAX (repeat LoopPass n)) m) = RawAirData m.
Proof.
  induction n as [ | k IH ]; intros m.
  - reflexivity.
  - cbn [repeat]. rewrite run_LoopPass, IH.
    destruct (main_loop_body_effect INT_MAX m) as (_ & _ & Hraw & _).
    exact Hraw.
Qed.

Lemma passes_filter_results (INT_MAX : Z) (n : nat) :
  forall m, to_uchar (errorWord (RawAirData m)) <> 0 ->
    filter_results INT_MAX (repeat LoopPass n) m = repeat FAULT_AIRFILTER n.
Proof.
  induction n as [ | k IH ]; intros m Hbad.
  - reflexivity.
  - cbn [repeat filter_results].
    destruct (filterAirData_effect Obj_RawAirData Obj_FilteredAirData m)
      as (Hr & _).
    cbv zeta in Hr. cbn [obj_val] in Hr. rewrite Hr.
    apply Z.eqb_neq in Hbad. rewrite Hbad. cbn [negb]. f_equal.
    apply IH.
    destruct (main_loop_body_effect INT_MAX m) as (_ & _ & Hraw & _).
    cbv zeta in Hraw. rewrite Hraw. apply Z.eqb_neq. exact Hbad.
Qed.

(** [X5]: the loop does not wait for a new sample.  With no interrupt in
    between, [n] passes over a raw sample whose [errorWord] is not 0 fail
    [n] times: starting with the counter at 0 (and [n] within [int]) the
    counter ends at [n] and [Fault(FAULT_AIRFILTER)] has been called
    [n - 5] times, once in every pass from the sixth on.  The raw sample is
    as before. *)
Theorem stale_sample_escalates :
  forall (INT_MAX : Z) (n : nat) (m : machine),
    FilterErrorCount m = 0 ->
    to_uchar (errorWord (RawAirData m)) <> 0 ->
    Z.of_nat n <= INT_MAX ->
    let m' := exec (run INT_MAX (repeat LoopPass n)) m in
    faults_reported FAULT_AIRFILTER (run INT_MAX (repeat LoopPass n)) m
      = (n - 5)%nat /\
    FilterErrorCount m' = Z.of_nat n /\
    RawAirData m' = RawAirData m.
Proof.
  intros INT_MAX n m H0 Hbad Hn. cbv zeta.
  pose proof (passes_filter_results INT_MAX n m Hbad) as Hres.
  destruct (run_debounce INT_MAX (repeat LoopPass n) m) as (Hf & Hs).
  - rewrite H0. lia.
  - rewrite H0, Hres, repeat_length. lia.
  - rewrite H0, Hres in Hf, Hs.
    rewrite escalations_repeat in Hf by lia.
    rewrite streak_after_repeat in Hs.
    split; [ | split ].
    + apply run_faults_reported. rewrite Hf. reflexivity.
    + rewrite Hs. lia.
    + apply passes_keep_raw.
Qed.

(** ** Schedules without overrun *)

Lemma overruns_expected_zero (sch : list sched_event) :
  forall pending,
    overruns_expected pending sch = O <->
    every_sample_served pending sch = true.
Proof.
  induction sch as [ | [ io | ] sch IH ]; intros pending.
  - cbn. tauto.
  - cbn [overruns_expected every_sample_served].
    rewrite andb_true_iff, <- IH.
    destruct pending; cbn [negb]; split; intros H;
      try (destruct H as (H1 & H2)); try discriminate; try lia.
  - cbn [overruns_expected every_sample_served]. apply IH.
Qed.

(** [X6]: a schedule runs without any call [Fault(FAULT_OVERRUN)] exactly
    when every interrupt is followed by a pass of the loop before the next
    interrupt arrives (and no sample is waiting when the first one
    arrives). *)
Theorem overrun_free_iff_served :
  forall (INT_MAX : Z) (sch : list sched_event) (m : machine),
    faults_reported FAULT_OVERRUN (run INT_MAX sch) m = O <->
    every_sample_served (sample_pending m) sch = true.
Proof.
  intros INT_MAX sch m.
  rewrite <- overruns_expected_zero.
  rewrite (run_faults_reported INT_MAX FAULT_OVERRUN sch m
             (overruns_expected (sample_pending m) sch)
             (run_overruns INT_MAX sch m)).
  tauto.
Qed.

(** ** An interrupt during a pass *)

(** The machine after the rest of a pass. *)
Lemma loop_tail_exact (INT_MAX e : Z) (m : machine) :
  let d := FilteredAirData m in
  let c' := int_incr INT_MAX (FilterErrorCount m) in
  let q := to_ulong (speed d / tempC d) in
  exec (loop_tail INT_MAX e) m =
    mkMachine (RawAirData m) (AirDataProcessed m) d
      (if tempC d =? 0 then CompensatedAirData m
       else if q >? 65535 then CompensatedAirData m
       else mkAirData (to_uchar (errorWord d)) (to_ushort q) (to_ulong (speed d)))
      (if tempC d =? 0 then FAULT_COMPENSATE_DIV
       else if q >? 65535 then FAULT_COMPENSATE_RANGE else 0)
      (if e =? 0 then 0 else c')
      (T1_masked m)
      (trace m ++
         (if negb (e =? 0) && (c' >? 5) then [Ev_Fault FAULT_AIRFILTER] else []) ++
         (if tempC d =? 0 then [Ev_Fault FAULT_COMPENSATE_DIV]
          else if q >? 65535 then [Ev_Fault FAULT_COMPENSATE_RANGE]
          else [Ev_Store Obj_CompensatedAirData F_tempC (to_ushort q);
                Ev_Store Obj_CompensatedAirData F_speed (to_ulong (speed d));
                Ev_Store Obj_CompensatedAirData F_errorWord
                  (to_uchar (errorWord d))])).
Proof.
  destruct m as [raw p fil cmp e0 c msk tr].
  destruct fil as [fe ft fs]. cbv zeta.
  unfold loop_tail, debounce, compensateAirData.
  unfold_monad.
  destruct (e =? 0); cbn [negb andb]; unfold_monad;
    try destruct (int_incr INT_MAX c >? 5); unfold_monad;
    destruct (ft =? 0); unfold_monad;
    cbn [Z.eqb negb FAULT_COMPENSATE_DIV]; unfold_monad;
    try (destruct (to_ulong (fs / ft) >? 65535);
         unfold_monad; cbn [Z.eqb negb FAULT_COMPENSATE_RANGE]; unfold_monad);
    rewrite <- ?app_assoc; cbn [app]; rewrite ?app_nil_r; reflexivity.
Qed.

(** [X7]: once [filterAirData] has returned, the rest of the pass and the
    timer interrupt work on disjoint parts of the machine: running
    [Tick_10ms] after the rest of the pass, or before it (that is, at any
    point during it), gives the same objects, flag, [err], counter and mask,
    and the same number of calls of [Fault] for every code.  The pass is the
    call of [filterAirData] followed by that rest. *)
Theorem irq_commutes_with_loop_tail :
  forall (INT_MAX e : Z) (io : port_A) (m : machine) (code : Z),
    let a := exec (Tick_10ms io) (exec (loop_tail INT_MAX e) m) in
    let b := exec (loop_tail INT_MAX e) (exec (Tick_10ms io) m) in
    main_loop_body INT_MAX m =
      (r <- filterAirData Obj_RawAirData Obj_FilteredAirData ;;
       loop_tail INT_MAX r) m /\
    RawAirData a = RawAirData b /\
    AirDataProcessed a = AirDataProcessed b /\
    FilteredAirData a = FilteredAirData b /\
    CompensatedAirData a = CompensatedAirData b /\
    err a = err b /\
    FilterErrorCount a = FilterErrorCount b /\
    T1_masked a = T1_masked b /\
    length (trace a) = length (trace b) /\
    fault_total code a = fault_total code b.
Proof.
  intros INT_MAX e io m code. cbv zeta.
  split; [ reflexivity | ].
  rewrite (loop_tail_exact INT_MAX e m), (Tick_10ms_effect io m).
  rewrite Tick_10ms_effect, loop_tail_exact.
  cbv zeta. unfold sample_pending, fault_total.
  cbn [RawAirData AirDataProcessed FilteredAirData CompensatedAirData
       err FilterErrorCount T1_masked trace].
  repeat split.
  - rewrite !length_app. lia.
  - rewrite !filter_app, !length_app. lia.
Qed.

(** ** What every schedule keeps *)

Lemma wf_narrowed (a b c : Z) :
  wf_AirData (mkAirData (to_uchar a) (to_ushort b) (to_ulong c)).
Proof.
  unfold wf_AirData, is_uchar, is_ushort, is_ulong, to_uchar, to_ushort, to_ulong.
  cbn [errorWord tempC speed].
  repeat split; apply Z.mod_pos_bound; reflexivity.
Qed.

Lemma Tick_10ms_keeps_ok (io : port_A) (m : machine) :
  machine_ok m -> machine_ok (exec (Tick_10ms io) m).
Proof.
  intros (Hraw & Hfil & Hcmp & Hflag & Hmask & Herr).
  rewrite Tick_10ms_effect. unfold machine_ok.
  cbn [RawAirData AirDataProcessed FilteredAirData CompensatedAirData
       err T1_masked].
  split; [ apply wf_narrowed | ].
  split; [ exact Hfil | ]. split; [ exact Hcmp | ].
  split; [ | split; assumption ].
  destruct (sample_pending m); [ exact Hflag | left; reflexivity ].
Qed.

Lemma main_loop_body_keeps_ok (INT_MAX : Z) (m : machine) :
  machine_ok m -> machine_ok (exec (main_loop_body INT_MAX) m).
Proof.
  intros (Hraw & Hfil & Hcmp & Hflag & Hmask & Herr).
  rewrite main_loop_body_exact. cbv zeta. unfold machine_ok.
  cbn [RawAirData AirDataProcessed FilteredAirData CompensatedAirData
       err T1_masked].
  split; [ exact Hraw | ].
  split; [ apply wf_narrowed | ].
  split; [ | split; [ right; reflexivity | split; [ reflexivity | ] ] ];
    destruct (to_ushort (scaled_tempC (tempC (RawAirData m))) =? 0);
    try destruct (_ >? 65535);
    try assumption; try apply wf_narrowed; tauto.
Qed.

(** [X8]: between the events of any schedule the machine stays well
    formed: the fields of the raw, filtered and compensated samples are
    within their 8, 16 and 32 bits, the flag is 0 or 1, the timer interrupt
    is unmasked, and [err] is 0, [FAULT_COMPENSATE_DIV] or
    [FAULT_COMPENSATE_RANGE]. *)
Theorem run_keeps_machine_ok :
  forall (INT_MAX : Z) (sch : list sched_event) (m : machine),
    machine_ok m ->
    machine_ok (exec (run INT_MAX sch) m).
Proof.
  intros INT_MAX sch. induction sch as [ | [ io | ] sch IH ]; intros m Hok.
  - rewrite run_nil. exact Hok.
  - rewrite run_IRQ. apply IH, Tick_10ms_keeps_ok, Hok.
  - rewrite run_LoopPass. apply IH, main_loop_body_keeps_ok, Hok.
Qed.

(** ** The two stages together *)

Lemma scaled_in_range (t : Z) :
  0 <= t <= 65323 ->
  0 <= t * 100325 / 100000 < 2 ^ 16 /\
  (t * 100325 / 100000 = 0 <-> t = 0).
Proof.
  intros Ht.
  pose proof (Z.mul_div_le (t * 100325) 100000).
  pose proof (Z.mul_succ_div_gt (t * 100325) 100000).
  lia.
Qed.

(** [X9]: one pass of the loop on a well typed raw sample with [tempC] up
    to 65323 (so that the scaled value fits its field).  The filtered
    sample is the raw one with [tempC] scaled to [ft]; then a raw [tempC]
    of 0 ends in [FAULT_COMPENSATE_DIV], a quotient [speed / ft] above
    65535 in [FAULT_COMPENSATE_RANGE], both with the compensated sample of
    the pass before left in place, and otherwise [err] is 0 and the
    compensated sample is the raw [errorWord], [speed / ft] and the raw
    [speed].  The raw sample is not changed. *)
Theorem pass_on_sample :
  forall (INT_MAX : Z) (m : machine),
    wf_AirData (RawAirData m) ->
    tempC (RawAirData m) <= 65323 ->
    let raw := RawAirData m in
    let ft := tempC raw * 100325 / 100000 in
    let m' := exec (main_loop_body INT_MAX) m in
    RawAirData m' = raw /\
    FilteredAirData m' = mkAirData (errorWord raw) ft (speed raw) /\
    (tempC raw = 0 ->
     err m' = FAULT_COMPENSATE_DIV /\
     CompensatedAirData m' = CompensatedAirData m) /\
    (tempC raw <> 0 -> 65535 < speed raw / ft ->
     err m' = FAULT_COMPENSATE_RANGE /\
     CompensatedAirData m' = CompensatedAirData m) /\
    (tempC raw <> 0 -> speed raw / ft <= 65535 ->
     err m' = FAULT_NONE /\
     CompensatedAirData m' =
       mkAirData (errorWord raw) (speed raw / ft) (speed raw)).
Proof.
  intros INT_MAX m Hwf Hmax. cbv zeta.
  destruct (wf_obj_fields _ Hwf) as (Ee & _ & Es).
  destruct Hwf as (_ & Ht & Hs).
  assert (Ht' : 0 <= tempC (RawAirData m) <= 65323)
    by (unfold is_ushort in Ht; lia).
  destruct (scaled_in_range _ Ht') as (Hft & Hzero).
  rewrite main_loop_body_exact. cbv zeta.
  cbn [RawAirData FilteredAirData CompensatedAirData err].
  rewrite (scaled_tempC_exact _ Ht), Ee, Es.
  rewrite (to_ushort_id (tempC (RawAirData m) * 100325 / 100000)) by exact Hft.
  rewrite Ee, Es.
  set (ft := tempC (RawAirData m) * 100325 / 100000) in *.
  split; [ reflexivity | ]. split; [ reflexivity | ].
  destruct (Z.eqb_spec ft 0) as [ E0 | E0 ].
  - repeat split; intros; try reflexivity; tauto.
  - assert (Hpos : 0 < ft) by lia.
    rewrite (ulong_quotient _ _ Hs Hpos).
    assert (Hq0 : 0 <= speed (RawAirData m) / ft)
      by (apply Z.div_pos; unfold is_ulong in Hs; lia).
    destruct (Z.gtb_spec (speed (RawAirData m) / ft) 65535) as [ Hq | Hq ].
    + repeat split; intros; try reflexivity; try tauto; lia.
    + rewrite (to_ushort_id (speed (RawAirData m) / ft))
        by (unfold is_ushort; lia).
      repeat split; intros; try reflexivity; try tauto; lia.
Qed.

(** [X10]: in a pass on a well typed raw sample, [compensateAirData]
    returns [FAULT_COMPENSATE_DIV] exactly for a raw [tempC] of 0 and of
    65324: there the scaled value is 65536, which the 16-bit field of the
    filtered sample holds as 0. *)
Theorem pass_divide_by_zero_iff :
  forall (INT_MAX : Z) (m : machine),
    wf_AirData (RawAirData m) ->
    let t := tempC (RawAirData m) in
    let m' := exec (main_loop_body INT_MAX) m in
    (tempC (FilteredAirData m') = 0 <-> t = 0 \/ t = 65324) /\
    (err m' = FAULT_COMPENSATE_DIV <-> t = 0 \/ t = 65324) /\
    (t = 65324 -> scaled_tempC t = 65536).
Proof.
  intros INT_MAX m (_ & Ht & _). cbv zeta.
  rewrite main_loop_body_exact. cbv zeta.
  cbn [FilteredAirData err tempC].
  rewrite (scaled_tempC_exact _ Ht). unfold to_ushort.
  unfold is_ushort in Ht.
  set (t := tempC (RawAirData m)) in *.
  pose proof (Z.mul_div_le (t * 100325) 100000).
  pose proof (Z.mul_succ_div_gt (t * 100325) 100000).
  assert (Hz : (t * 100325 / 100000) mod 2 ^ 16 = 0 <-> t = 0 \/ t = 65324).
  { change (2 ^ 16) with 65536.
    pose proof (Z.mod_pos_bound (t * 100325 / 100000) 65536).
    pose proof (Z.div_mod (t * 100325 / 100000) 65536).
    assert (0 <= t * 100325 / 100000 / 65536 <= 1).
    { split; [ apply Z.div_pos; lia | ].
      apply Z.lt_succ_r, Z.div_lt_upper_bound; lia. }
    lia. }
  split; [ exact Hz | ]. split.
  - destruct (Z.eqb_spec ((t * 100325 / 100000) mod 2 ^ 16) 0) as [ E0 | E0 ].
    + split; [ intros _; apply Hz, E0 | reflexivity ].
    + split; [ | intros H1; apply Hz in H1; contradiction ].
      destruct (_ >? 65535); discriminate.
  - intros E. rewrite E. reflexivity.
Qed.

(** ** The debounce policy over whole schedules *)

(** [X4]: over any schedule of passes and interrupts in which the counter
    cannot reach [INT_MAX], the loop does what the debounce policy says for
    the list of filter results: the number of calls
    [Fault(FAULT_AIRFILTER)] is the number of failures that make a streak
    longer than 5, and the counter ends as the length of the last streak of
    failures. *)
Theorem debounce_refines_policy :
  forall (INT_MAX : Z) (sch : list sched_event) (m : machine),
    0 <= FilterErrorCount m ->
    FilterErrorCount m + Z.of_nat (length (filter_results INT_MAX sch m))
      <= INT_MAX ->
    faults_reported FAULT_AIRFILTER (run INT_MAX sch) m =
      escalations (FilterErrorCount m) (filter_results INT_MAX sch m) /\
    FilterErrorCount (exec (run INT_MAX sch) m) =
      streak_after (FilterErrorCount m) (filter_results INT_MAX sch m).
Proof.
  intros INT_MAX sch m H0 Hmax.
  destruct (run_debounce INT_MAX sch m H0 Hmax) as (Hf & Hs).
  split; [ | exact Hs ].
  apply run_faults_reported. exact Hf.
Qed.

(** ** The sample a pass works on *)

(** [X11]: at any point of a schedule [RawAirData] is the sample of the
    most recent interrupt (passes of the loop never write it), and a pass
    made at that point filters exactly that sample, however many earlier
    samples were overwritten without being processed. *)
Theorem raw_is_last_sample :
  forall (INT_MAX : Z) (sch : list sched_event) (m : machine),
    let d := last_sample sch (RawAirData m) in
    RawAirData (exec (run INT_MAX sch) m) = d /\
    FilteredAirData (exec (run INT_MAX (sch ++ [LoopPass])) m) =
      mkAirData (to_uchar (errorWord d))
                (to_ushort (scaled_tempC (tempC d)))
                (to_ulong (speed d)).
Proof.
  intros INT_MAX sch m. cbv zeta.
  assert (Hraw : forall s, RawAirData (exec (run INT_MAX sch) s)
                           = last_sample sch (RawAirData s)).
  { induction sch as [ | [ io | ] sch IH ]; intros s.
    - reflexivity.
    - rewrite run_IRQ, IH, Tick_10ms_effect. reflexivity.
    - rewrite run_LoopPass, IH, main_loop_body_exact. reflexivity. }
  split; [ apply Hraw | ].
  rewrite run_app, run_LoopPass, run_nil, main_loop_body_exact. cbv zeta.
  cbn [FilteredAirData]. rewrite Hraw. reflexivity.
Qed.

(** ** Instances of the further properties *)

(** Eight passes from program start, where the raw [errorWord] is 1: three
    reports, in the sixth, seventh and eighth pass. *)
Lemma stale_sample_escalates_witness :
  (FilterErrorCount initial_machine = 0 /\
   to_uchar (errorWord (RawAirData initial_machine)) <> 0 /\
   Z.of_nat 8 <= 32767) /\
  faults_reported FAULT_AIRFILTER (run 32767 (repeat LoopPass 8)) initial_machine
    = 3%nat /\
  FilterErrorCount (exec (run 32767 (repeat LoopPass 8)) initial_machine) = 8.
Proof.
  assert (H0 : FilterErrorCount initial_machine = 0) by reflexivity.
  assert (Hbad : to_uchar (errorWord (RawAirData initial_machine)) <> 0)
    by (vm_compute; discriminate).
  assert (Hn : Z.of_nat 8 <= 32767) by (simpl; lia).
  split; [ split; [ exact H0 | split; [ exact Hbad | exact Hn ] ] | ].
  destruct (stale_sample_escalates 32767 8 initial_machine H0 Hbad Hn)
    as (H1 & H2 & _).
  split; [ exact H1 | exact H2 ].
Defined.

(** Program start, and the state after a schedule with an overrun. *)
Lemma run_keeps_machine_ok_witness :
  let sch := [IRQ_T1 (mkPort 0 1000 100000); LoopPass;
              IRQ_T1 (mkPort 300 70000 5); IRQ_T1 (mkPort 2 0 7); LoopPass] in
  machine_ok initial_machine /\
  machine_ok (exec (run 32767 sch) initial_machine).
Proof.
  cbv zeta.
  assert (Hok : machine_ok initial_machine).
  { unfold machine_ok, wf_AirData, is_uchar, is_ushort, is_ulong. simpl.
    repeat split; lia. }
  split; [ exact Hok | ].
  exact (run_keeps_machine_ok 32767
           [IRQ_T1 (mkPort 0 1000 100000); LoopPass;
            IRQ_T1 (mkPort 300 70000 5); IRQ_T1 (mkPort 2 0 7); LoopPass]
           initial_machine Hok).
Defined.

(** The first pass of the program: 1000 is scaled to 1003, and 100000 /
    1003 = 99. *)
Lemma pass_on_sample_witness :
  (wf_AirData (RawAirData initial_machine) /\
   tempC (RawAirData initial_machine) <= 65323) /\
  FilteredAirData (exec (main_loop_body 32767) initial_machine)
    = mkAirData 1 1003 100000 /\
  err (exec (main_loop_body 32767) initial_machine) = FAULT_NONE /\
  CompensatedAirData (exec (main_loop_body 32767) initial_machine)
    = mkAirData 1 99 100000.
Proof.
  assert (Hwf : wf_AirData (RawAirData initial_machine))
    by (unfold wf_AirData, is_uchar, is_ushort, is_ulong; simpl; lia).
  assert (Hmax : tempC (RawAirData initial_machine) <= 65323)
    by (simpl; lia).
  split; [ split; [ exact Hwf | exact Hmax ] | ].
  destruct (pass_on_sample 32767 initial_machine Hwf Hmax)
    as (_ & Hf & _ & _ & Hok).
  split; [ exact Hf | ].
  apply Hok.
  - simpl. lia.
  - vm_compute. discriminate.
Defined.

(** A raw [tempC] of 65324. *)
Lemma pass_divide_by_zero_iff_witness :
  let m := with_raw (mkAirData 0 65324 100000) in
  wf_AirData (RawAirData m) /\
  tempC (FilteredAirData (exec (main_loop_body 32767) m)) = 0 /\
  err (exec (main_loop_body 32767) m) = FAULT_COMPENSATE_DIV.
Proof.
  cbv zeta.
  assert (Hwf : wf_AirData (RawAirData (with_raw (mkAirData 0 65324 100000))))
    by (unfold wf_AirData, is_uchar, is_ushort, is_ulong; simpl; lia).
  split; [ exact Hwf | ].
  destruct (pass_divide_by_zero_iff 32767
              (with_raw (mkAirData 0 65324 100000)) Hwf) as (H1 & H2 & _).
  split; [ apply H1 | apply H2 ]; right; reflexivity.
Defined.

(** Program start, then a good sample, a pass, a faulty sample and seven
    passes: the results are one failure, a success and seven failures, and
    the two last failures are reported. *)
Lemma debounce_refines_policy_witness :
  let sch := [LoopPass; IRQ_T1 (mkPort 0 1000 100000); LoopPass;
              IRQ_T1 (mkPort 4 1000 100000)] ++ repeat LoopPass 7 in
  (0 <= FilterErrorCount initial_machine /\
   FilterErrorCount initial_machine
     + Z.of_nat (length (filter_results 32767 sch initial_machine)) <= 32767) /\
  faults_reported FAULT_AIRFILTER (run 32767 sch) initial_machine = 2%nat /\
  FilterErrorCount (exec (run 32767 sch) initial_machine) = 7.
Proof.
  cbv zeta.
  assert (H0 : 0 <= FilterErrorCount initial_machine) by (simpl; lia).
  assert (Hmax : FilterErrorCount initial_machine
                 + Z.of_nat (length (filter_results 32767
                      ([LoopPass; IRQ_T1 (mkPort 0 1000 100000); LoopPass;
                        IRQ_T1 (mkPort 4 1000 100000)] ++ repeat LoopPass 7)
                      initial_machine)) <= 32767)
    by (vm_compute; discriminate).
  assert (Hres : filter_results 32767
                   ([LoopPass; IRQ_T1 (mkPort 0 1000 100000); LoopPass;
                     IRQ_T1 (mkPort 4 1000 100000)] ++ repeat LoopPass 7)
                   initial_machine
                 = [FAULT_AIRFILTER; 0] ++ repeat FAULT_AIRFILTER 7)
    by (vm_compute; reflexivity).
  split; [ split; [ exact H0 | exact Hmax ] | ].
  destruct (debounce_refines_policy 32767
              ([LoopPass; IRQ_T1 (mkPort 0 1000 100000); LoopPass;
                IRQ_T1 (mkPort 4 1000 100000)] ++ repeat LoopPass 7)
              initial_machine H0 Hmax) as (H1 & H2).
  rewrite Hres in H1, H2.
  split; [ exact H1 | exact H2 ].
Defined.
